(** * Observability and fault-injection core of the checkout backend (src/app.py)

    Shallow embedding of the Flask application in [src/app.py]: the
    process-wide [metrics] dict, [response_time_history], [log_history] and
    [fault_state], the [monitor_request] decorator, the instrumented route
    handlers and the non-instrumented observability and fault-control
    endpoints.

    Modelling conventions:
    - Python numbers (ints and floats alike) are exact rationals [Q];
      [round(x, n)] is Python's round-half-even at [n] decimals.
    - JSON values ([request.get_json()], toggles.json, [jsonify]) are the
      inductive [json]; a dict is an association list (first key wins).
    - [time.time()] reads the [clock] field of the world; only
      [time.sleep] and the running time of a handler advance it.
    - The text produced by [strftime], [str()] of a value and the [:.2f]
      format is left abstract: the printing functions are a parameter
      [P : printers] of every operation.
    - A Python exception is [Exn msg] of the [exc] type; an exception that
      escapes a Flask view becomes Flask's generic 500 response. *)

From Stdlib Require Import ZArith QArith Qround List String Bool Lia Lqa.
Set Warnings "-register-all".
Import ListNotations.
Open Scope string_scope.
Open Scope Z_scope.

(** ** Values *)

Inductive json : Type :=
| JNull
| JBool (b : bool)
| JNum (q : Q)
| JStr (s : string)
| JArr (l : list json)
| JObj (kvs : list (string * json)).

Inductive exc (A : Type) : Type :=
| Ok (a : A)
| Exn (msg : string).
Arguments Ok {A} a.
Arguments Exn {A} msg.

(** Python truthiness of a JSON value. *)
Definition truthy (j : json) : bool :=
  match j with
  | JNull => false
  | JBool b => b
  | JNum q => negb (Qeq_bool q 0)
  | JStr s => negb (String.eqb s "")
  | JArr l => match l with [] => false | _ => true end
  | JObj kvs => match kvs with [] => false | _ => true end
  end.

Definition py_type_name (j : json) : string :=
  match j with
  | JNull => "NoneType" | JBool _ => "bool" | JNum _ => "float"
  | JStr _ => "str" | JArr _ => "list" | JObj _ => "dict"
  end.

Fixpoint assoc_get {A} (k : string) (l : list (string * A)) : option A :=
  match l with
  | [] => None
  | (k', v) :: l' => if String.eqb k k' then Some v else assoc_get k l'
  end.

(** [d.get(k, default)]: only a dict has [.get]. *)
Definition json_get (d : json) (k : string) (default : json) : exc json :=
  match d with
  | JObj kvs => Ok (match assoc_get k kvs with Some v => v | None => default end)
  | _ => Exn ("'" ++ py_type_name d ++ "' object has no attribute 'get'")
  end.

(** [v == s] for a Python string [s]. *)
Definition is_str (j : json) (s : string) : bool :=
  match j with JStr s' => String.eqb s' s | _ => false end.

(** A value usable in arithmetic and in [> 0]: numbers, and bools as ints. *)
Definition py_num (j : json) : option Q :=
  match j with
  | JNum q => Some q
  | JBool b => Some (if b then 1 else 0)%Q
  | _ => None
  end.

(** Python's [round(x, n)]: round half to even at [n] decimals. *)
Definition py_round (x : Q) (n : nat) : Q :=
  let s := (10 ^ Z.of_nat n)%Z in
  let y := (x * inject_Z s)%Q in
  let f := Qfloor y in
  let r := (y - inject_Z f)%Q in
  let k := if Qeq_bool r (1 # 2) then (if Z.even f then f else f + 1)
           else if Qle_bool (1 # 2) r then f + 1 else f in
  (k # Z.to_pos s)%Q.

(** [a < b] on numbers. *)
Definition Qlt_bool (a b : Q) : bool := negb (Qle_bool b a).

Definition Qmax (a b : Q) : Q := if Qle_bool a b then b else a.
Definition Qmin (a b : Q) : Q := if Qle_bool a b then a else b.

(** [int(x)]: truncation toward zero. *)
Definition py_int (x : Q) : Z := Z.quot (Qnum x) (Zpos (Qden x)).

(** [l[-n:]] *)
Definition lastn {A} (n : nat) (l : list A) : list A :=
  skipn (List.length l - n) l.

(** ** Process state *)

Record metrics_t : Type := {
  total_requests : Z;
  error_requests : Z;
  total_response_time : Q;
  orders_created : Z;
  total_sales : Z;
  last_request_time : Q;
  uptime_start : Q
}.

Record sample : Type := {
  s_time : string;
  s_value : Q;
  s_is_error : bool
}.

Record log_entry : Type := {
  l_level : string;
  l_message : string;
  l_category : string;
  l_timestamp : string
}.

Record fault_t : Type := {
  database_down : bool;
  high_latency : bool;
  latency_ms : json
}.

(** What [open('toggles.json')] followed by [json.load] meets. *)
Inductive toggles_file_t : Type :=
| TFMissing                      (* FileNotFoundError *)
| TFUnreadable (err : string)    (* any other OSError / decoding error *)
| TFText (parsed : option json). (* None: json.JSONDecodeError *)

Record world : Type := {
  metrics : metrics_t;
  response_time_history : list sample;
  log_history : list log_entry;
  fault_state : fault_t;
  clock : Q;
  toggles_file : toggles_file_t
}.

Definition MAX_HISTORY_POINTS : nat := 20.

Definition set_metrics (m : metrics_t) (w : world) : world :=
  {| metrics := m; response_time_history := response_time_history w;
     log_history := log_history w; fault_state := fault_state w;
     clock := clock w; toggles_file := toggles_file w |}.

Definition set_history (h : list sample) (w : world) : world :=
  {| metrics := metrics w; response_time_history := h;
     log_history := log_history w; fault_state := fault_state w;
     clock := clock w; toggles_file := toggles_file w |}.

Definition set_logs (l : list log_entry) (w : world) : world :=
  {| metrics := metrics w; response_time_history := response_time_history w;
     log_history := l; fault_state := fault_state w;
     clock := clock w; toggles_file := toggles_file w |}.

Definition set_fault (f : fault_t) (w : world) : world :=
  {| metrics := metrics w; response_time_history := response_time_history w;
     log_history := log_history w; fault_state := f;
     clock := clock w; toggles_file := toggles_file w |}.

Definition advance (d : Q) (w : world) : world :=
  {| metrics := metrics w; response_time_history := response_time_history w;
     log_history := log_history w; fault_state := fault_state w;
     clock := (clock w + d)%Q; toggles_file := toggles_file w |}.

(** [metrics["total_requests"] += 1; metrics["last_request_time"] = t] *)
Definition start_request (t : Q) (m : metrics_t) : metrics_t :=
  {| total_requests := total_requests m + 1; error_requests := error_requests m;
     total_response_time := total_response_time m;
     orders_created := orders_created m; total_sales := total_sales m;
     last_request_time := t; uptime_start := uptime_start m |}.

(** [metrics["error_requests"] += 1] *)
Definition incr_errors (m : metrics_t) : metrics_t :=
  {| total_requests := total_requests m; error_requests := error_requests m + 1;
     total_response_time := total_response_time m;
     orders_created := orders_created m; total_sales := total_sales m;
     last_request_time := last_request_time m; uptime_start := uptime_start m |}.

(** [metrics["total_response_time"] += response_time] *)
Definition add_response_time (d : Q) (m : metrics_t) : metrics_t :=
  {| total_requests := total_requests m; error_requests := error_requests m;
     total_response_time := (total_response_time m + d)%Q;
     orders_created := orders_created m; total_sales := total_sales m;
     last_request_time := last_request_time m; uptime_start := uptime_start m |}.

(** [metrics["orders_created"] += 1; metrics["total_sales"] += total] *)
Definition record_order (amount : Z) (m : metrics_t) : metrics_t :=
  {| total_requests := total_requests m; error_requests := error_requests m;
     total_response_time := total_response_time m;
     orders_created := orders_created m + 1; total_sales := total_sales m + amount;
     last_request_time := last_request_time m; uptime_start := uptime_start m |}.

(** [response_time_history.append(s)] followed by one [pop(0)] when the
    list is longer than [MAX_HISTORY_POINTS]. *)
Definition push_history (h : list sample) (s : sample) : list sample :=
  let h' := (h ++ [s])%list in
  if Nat.ltb MAX_HISTORY_POINTS (List.length h') then tl h' else h'.

(** ** Printing functions left abstract *)

Record printers : Type := {
  strftime : string -> Q -> string;  (* datetime.fromtimestamp(t).strftime(fmt) *)
  py_str : json -> string;           (* str(v) inside an f-string *)
  fmt_fixed2 : Q -> string           (* f"{x:.2f}" *)
}.

(** ** Responses *)

Inductive body_t : Type :=
| BJson (j : json)
| BTemplate (name : string) (ctx : list (string * json))
| BHtml (s : string).

Record response : Type := {
  status_code : Z;
  body : body_t
}.

(** [jsonify(d), code] *)
Definition jsonify_code (code : Z) (kvs : list (string * json)) : response :=
  {| status_code := code; body := BJson (JObj kvs) |}.

(** What Flask sends when an exception escapes a view. *)
Definition flask_error : response :=
  {| status_code := 500; body := BHtml "Internal Server Error" |}.

(** The fixed short-circuit response of [monitor_request]. *)
Definition db_unavailable_response : response :=
  jsonify_code 503
    [("status", JStr "error");
     ("message", JStr "Database connection failed. Service temporarily unavailable.");
     ("error_code", JStr "DB_CONNECTION_FAILED")].

(** Look a key up in a JSON response. *)
Definition json_field (k : string) (r : response) : option json :=
  match body r with
  | BJson (JObj kvs) => assoc_get k kvs
  | _ => None
  end.

(** ** Requests *)

(** The body of a POST as [request.get_json()] sees it. *)
Inductive req_json : Type :=
| NoJson                  (* not a JSON request: get_json() raises UnsupportedMediaType *)
| BadJson                 (* malformed JSON: get_json() raises BadRequest *)
| JsonBody (j : json).

Definition get_json (b : req_json) : exc json :=
  match b with
  | NoJson => Exn "415 Unsupported Media Type: Did not attempt to load JSON data because the request Content-Type was not 'application/json'."
  | BadJson => Exn "400 Bad Request: Failed to decode JSON object"
  | JsonBody j => Ok j
  end.

(** An inbound request to an instrumented route.  [rq_duration] is the time
    the view body takes to run, [rq_overshoot] how much longer than asked
    [time.sleep] sleeps: both are facts of the environment, not of the code. *)
Record request : Type := {
  rq_form : list (string * string);
  rq_args : list (string * string);
  rq_duration : Q;
  rq_overshoot : Q
}.

Definition opt_str (o : option string) : json :=
  match o with Some s => JStr s | None => JNull end.

(** [request.form.get(k, default)] *)
Definition form_get_default (rq : request) (k d : string) : string :=
  match assoc_get k (rq_form rq) with Some v => v | None => d end.

(** [not v] for [v = request.form.get(k)] *)
Definition form_missing (rq : request) (k : string) : bool :=
  match assoc_get k (rq_form rq) with Some v => String.eqb v "" | None => true end.

(** ** Cart (collaborator) *)

Record item : Type := { i_name : string; i_price : Z; i_quantity : Z }.

Definition mock_cart_items : list item :=
  [ {| i_name := "精選咖啡豆 (Premium Coffee Beans)"; i_price := 120; i_quantity := 1 |};
    {| i_name := "濾掛式咖啡包 (Drip Coffee Bag)"; i_price := 60; i_quantity := 1 |} ].

Record cart_totals : Type := {
  subtotal : Z; shipping_fee : Z; total : Z; items : list item
}.

Definition calculate_cart_totals (cart_items : list item) : cart_totals :=
  let sub := fold_left (fun acc it => acc + i_price it * i_quantity it) cart_items 0 in
  let fee := if sub >=? 200 then 0 else 60 in
  {| subtotal := sub; shipping_fee := fee; total := sub + fee; items := cart_items |}.

Definition item_json (it : item) : json :=
  JObj [("name", JStr (i_name it)); ("price", JNum (inject_Z (i_price it)));
        ("quantity", JNum (inject_Z (i_quantity it)))].

Definition cart_json (c : cart_totals) : json :=
  JObj [("subtotal", JNum (inject_Z (subtotal c)));
        ("shipping_fee", JNum (inject_Z (shipping_fee c)));
        ("total", JNum (inject_Z (total c)));
        ("items", JArr (map item_json (items c)))].

Definition default_toggles : json :=
  JObj [("enable_cod", JBool false); ("enable_free_shipping_nudge", JBool false)].

(** [load_toggles()] *)
Definition load_toggles (f : toggles_file_t) : exc json :=
  match f with
  | TFMissing => Ok default_toggles
  | TFUnreadable e => Exn e
  | TFText None => Ok default_toggles
  | TFText (Some j) => Ok j
  end.

Section App.

Variable P : printers.

(** [add_log(level, message, category)]: append, keep the last 100.
    (The console [print] is not modelled.) *)
Definition add_log (level message category : string) (w : world) : world :=
  let e := {| l_level := level; l_message := message; l_category := category;
              l_timestamp := strftime P "%Y-%m-%d %H:%M:%S" (clock w) |} in
  let l := (log_history w ++ [e])%list in
  set_logs (if Nat.ltb 100 (List.length l) then lastn 100 l else l) w.

(** Append a sample stamped with the current clock. *)
Definition record_sample (value : Q) (is_error : bool) (w : world) : world :=
  set_history
    (push_history (response_time_history w)
       {| s_time := strftime P "%H:%M:%S" (clock w); s_value := value;
          s_is_error := is_error |}) w.

Definition handler := world -> exc response * world.

(** [monitor_request(f)] applied to a call whose sleep overshoots by [ov]. *)
Definition monitor_request (ov : Q) (f : handler) (w0 : world) : exc response * world :=
  let start_time := clock w0 in
  let w1 := set_metrics (start_request start_time (metrics w0)) w0 in
  let fs := fault_state w1 in
  (* if fault_state["high_latency"] and fault_state["latency_ms"] > 0: sleep *)
  let pre : exc world :=
    if high_latency fs then
      match py_num (latency_ms fs) with
      | None => Exn ("'>' not supported between instances of '"
                      ++ py_type_name (latency_ms fs) ++ "' and 'int'")
      | Some q => if Qlt_bool 0 q then Ok (advance (q / 1000 + ov)%Q w1) else Ok w1
      end
    else Ok w1 in
  match pre with
  | Exn e => (Exn e, w1)
  | Ok w2 =>
    if database_down (fault_state w2) then
      let w3 := set_metrics (incr_errors (metrics w2)) w2 in
      let response_time_ms := ((clock w3 - start_time) * 1000)%Q in
      let w4 := record_sample response_time_ms true w3 in
      let w5 := add_log "error" "Database connection failed - Service unavailable" "error" w4 in
      (Ok db_unavailable_response, w5)
    else
      match f w2 with
      | (Ok result, w3) =>
        let response_time := (clock w3 - start_time)%Q in
        let w4 := set_metrics (add_response_time response_time (metrics w3)) w3 in
        (Ok result, record_sample (response_time * 1000)%Q false w4)
      | (Exn e, w3) =>
        let w4 := set_metrics (incr_errors (metrics w3)) w3 in
        (Exn e, add_log "error" ("Request failed: " ++ e) "error" w4)
      end
  end.

(** *** Instrumented views *)

Definition render (name : string) (ctx : list (string * json)) : response :=
  {| status_code := 200; body := BTemplate name ctx |}.

(** [checkout_options()] *)
Definition checkout_options (w : world) : exc response * world :=
  match load_toggles (toggles_file w) with
  | Exn e => (Exn e, w)
  | Ok toggles =>
    let cart_data := calculate_cart_totals mock_cart_items in
    (Ok (render "checkout.html" [("cart", cart_json cart_data); ("toggles", toggles)]), w)
  end.

(** [index()] *)
Definition index (w : world) : exc response * world :=
  match load_toggles (toggles_file w) with
  | Exn e => (Exn e, w)
  | Ok toggles =>
    match json_get toggles "enable_free_shipping_nudge" (JBool false) with
    | Exn e => (Exn e, w)
    | Ok enable_nudge =>
      let cart_data := calculate_cart_totals mock_cart_items in
      let nudge_message :=
        if truthy enable_nudge && (subtotal cart_data <? 200) then
          let diff := 200 - subtotal cart_data in
          JStr ("再購買 $" ++ py_str P (JNum (inject_Z diff)) ++ " 即可免運費！")
        else JNull in
      (Ok (render "cart.html" [("cart", cart_json cart_data);
                               ("nudge_message", nudge_message)]), w)
    end
  end.

(** [payment()] *)
Definition payment (w : world) : exc response * world :=
  match load_toggles (toggles_file w) with
  | Exn e => (Exn e, w)
  | Ok toggles =>
    match json_get toggles "enable_cod" (JBool false) with
    | Exn e => (Exn e, w)
    | Ok enable_cod =>
      let cart_data := calculate_cart_totals mock_cart_items in
      (Ok (render "payment.html" [("cart", cart_json cart_data);
                                  ("enable_cod", enable_cod)]), w)
    end
  end.

(** [success()] *)
Definition success (rq : request) (w : world) : exc response * world :=
  let arg k := opt_str (assoc_get k (rq_args rq)) in
  (Ok (render "success.html" [("order_id", arg "order_id"); ("total", arg "total");
                              ("payment_method", arg "payment_method");
                              ("delivery_method", arg "delivery_method")]), w).

(** [checkout()]: its own [try ... except Exception] turns any exception of
    the body into a 500 JSON response. *)
Definition checkout (rq : request) (w : world) : exc response * world :=
  let system_error e :=
    (Ok (jsonify_code 500 [("status", JStr "error"); ("message", JStr ("系統錯誤: " ++ e))]), w) in
  match load_toggles (toggles_file w) with
  | Exn e => system_error e
  | Ok toggles =>
    match json_get toggles "enable_cod" (JBool false) with
    | Exn e => system_error e
    | Ok enable_cod =>
      let cart_data := calculate_cart_totals mock_cart_items in
      let payment_method := form_get_default rq "payment_method" "credit_card" in
      let delivery_method := form_get_default rq "delivery_method" "宅配" in
      let invoice_type := form_get_default rq "invoice_type" "手機載具" in
      let place (payment_display : string) :=
        let w' := set_metrics (record_order (total cart_data) (metrics w)) w in
        let order_data :=
          JObj [("order_id", JStr "ORD-2025112300001");
                ("total", JNum (inject_Z (total cart_data)));
                ("payment_method", JStr payment_display);
                ("delivery_method", JStr delivery_method);
                ("invoice_type", JStr invoice_type);
                ("status", JStr "已成立")] in
        (Ok (jsonify_code 200
               [("status", JStr "success");
                ("message", JStr ("訂單已成功建立！付款方式：" ++ payment_display));
                ("order", order_data)]), w') in
      if String.eqb payment_method "cod" && negb (truthy enable_cod) then
        (Ok (jsonify_code 403 [("status", JStr "error");
                               ("message", JStr "貨到付款功能目前不可用");
                               ("error_code", JStr "FEATURE_DISABLED")]), w)
      else if String.eqb payment_method "credit_card" then
        if form_missing rq "card_number" || form_missing rq "expiry_date"
           || form_missing rq "cvv" then
          (Ok (jsonify_code 400 [("status", JStr "error");
                                 ("message", JStr "請填寫完整的信用卡資訊")]), w)
        else place "信用卡"
      else if String.eqb payment_method "cod" then place "貨到付款"
      else
        (Ok (jsonify_code 400 [("status", JStr "error");
                               ("message", JStr "無效的付款方式")]), w)
    end
  end.

Inductive route : Type := RIndex | RCheckoutOptions | RPayment | RSuccess | RCheckout.

Definition view (rt : route) (rq : request) : handler :=
  match rt with
  | RIndex => index
  | RCheckoutOptions => checkout_options
  | RPayment => payment
  | RSuccess => success rq
  | RCheckout => checkout rq
  end.

(** Running the view takes [rq_duration rq] of wall-clock time. *)
Definition call_view (rt : route) (rq : request) : handler :=
  fun w => let '(o, w') := view rt rq w in (o, advance (rq_duration rq) w').

(** The route as registered: [@monitor_request] around the view. *)
Definition instrumented (rt : route) (rq : request) : handler :=
  monitor_request (rq_overshoot rq) (call_view rt rq).

End App.

(** ** Non-instrumented endpoints *)

Section Endpoints.

Variable P : printers.

Definition avg_response_time_of (m : metrics_t) : Q :=
  if 0 <? total_requests m
  then (total_response_time m / inject_Z (total_requests m) * 1000)%Q else 0%Q.

Definition error_rate_of (m : metrics_t) : Q :=
  if 0 <? total_requests m
  then (inject_Z (error_requests m) / inject_Z (total_requests m) * 100)%Q else 0%Q.

Definition num (q : Q) : json := JNum q.
Definition znum (z : Z) : json := JNum (inject_Z z).

(** [get_metrics()] (the /metrics view). *)
Definition get_metrics (w : world) : response :=
  let m := metrics w in
  let current_time := clock w in
  let uptime := (current_time - uptime_start m)%Q in
  let avg_response_time := avg_response_time_of m in
  let error_rate := error_rate_of m in
  let throughput :=
    if Qlt_bool 0 uptime then (inject_Z (total_requests m) / uptime * 60)%Q else 0%Q in
  let avg_cart_value := total (calculate_cart_totals mock_cart_items) in
  let system_health := (100 - error_rate * 5)%Q in
  let system_health :=
    if Qlt_bool 200 avg_response_time
    then (system_health - (avg_response_time - 200) / 100 * 2)%Q else system_health in
  let system_health := Qmax 0 (Qmin 100 system_health) in
  let availability := Qmax 0 (100 - error_rate) in
  let monthly_budget_used := Qmin 100 (error_rate * 10) in
  let quarterly_budget_used := Qmin 100 (error_rate * 5) in
  let annual_budget_used := Qmin 100 (error_rate * 2) in
  jsonify_code 200
    [("system_health", num (py_round system_health 1));
     ("avg_response_time", num (py_round avg_response_time 1));
     ("error_rate", num (py_round error_rate 2));
     ("throughput", num (py_round throughput 1));
     ("total_orders", znum (orders_created m));
     ("total_sales", znum (total_sales m));
     ("avg_cart_value", znum avg_cart_value);
     ("uptime_seconds", num (py_round uptime 0));
     ("total_requests", znum (total_requests m));
     ("error_requests", znum (error_requests m));
     ("last_request", JStr (strftime P "%Y-%m-%d %H:%M:%S" (last_request_time m)));
     ("error_budget", JObj
        [("monthly_remaining", num (py_round (Qmax 0 (100 - monthly_budget_used)) 1));
         ("quarterly_remaining", num (py_round (Qmax 0 (100 - quarterly_budget_used)) 1));
         ("annual_remaining", num (py_round (Qmax 0 (100 - annual_budget_used)) 1))]);
     ("slo_status", JObj
        [("availability", num (py_round availability 2));
         ("latency_target", JStr "<200ms");
         ("latency_actual", JStr (py_str P (num (py_round avg_response_time 1)) ++ "ms"));
         ("latency_status", JStr (if Qlt_bool avg_response_time 200 then "healthy"
                                  else if Qlt_bool avg_response_time 500 then "warning"
                                  else "critical"))])].

Definition log_json (e : log_entry) : json :=
  JObj [("level", JStr (l_level e)); ("message", JStr (l_message e));
        ("category", JStr (l_category e)); ("timestamp", JStr (l_timestamp e))].

(** [get_logs()] (the /logs view): stored entries newest first, plus
    entries synthesised at read time. *)
Definition get_logs (w : world) : response :=
  let m := metrics w in
  let uptime := (clock w - uptime_start m)%Q in
  let error_rate := error_rate_of m in
  let now := strftime P "%Y-%m-%d %H:%M:%S" (clock w) in
  let entry lvl msg := JObj [("level", JStr lvl); ("message", JStr msg); ("timestamp", JStr now)] in
  let status_msg := "[STATUS] Uptime: " ++ py_str P (znum (py_int uptime))
                    ++ "s | Requests: " ++ py_str P (znum (total_requests m))
                    ++ " | Errors: " ++ py_str P (znum (error_requests m)) in
  let logs := (map log_json (rev (lastn 20 (log_history w)))
               ++ [entry "info" status_msg])%list in
  let fs := fault_state w in
  let logs := if database_down fs
              then entry "error" "[ALERT] DATABASE IS DOWN - All database operations will fail!" :: logs
              else logs in
  let logs := if high_latency fs
              then entry "warning" ("[ALERT] High latency injection active: +"
                                    ++ py_str P (latency_ms fs) ++ "ms per request") :: logs
              else logs in
  let logs := if Qlt_bool 5 error_rate
              then entry "error" ("[CRITICAL] Error rate " ++ fmt_fixed2 P error_rate
                                  ++ "% exceeds SLO threshold (5%)!") :: logs
              else if Qlt_bool 1 error_rate
              then entry "warning" ("[WARNING] Elevated error rate: " ++ fmt_fixed2 P error_rate
                                    ++ "%") :: logs
              else logs in
  {| status_code := 200; body := BJson (JArr logs) |}.

Definition fault_state_json (f : fault_t) : json :=
  JObj [("database_down", JBool (database_down f)); ("high_latency", JBool (high_latency f));
        ("latency_ms", latency_ms f)].

(** [fault_status()] (the /fault/status view). *)
Definition fault_status (w : world) : response :=
  let f := fault_state w in
  jsonify_code 200
    [("status", JStr "success");
     ("fault_state", fault_state_json f);
     ("is_degraded", JBool (database_down f || high_latency f));
     ("active_faults", JArr ((if database_down f then [JStr "database_down"] else [])
                             ++ (if high_latency f then [JStr "high_latency"] else []))%list)].

(** [get_chart_data()] (the /chart-data view). *)
Definition get_chart_data (w : world) : response :=
  let h := response_time_history w in
  let error_count := List.length (filter s_is_error h) in
  let total_count := match h with [] => 1%nat | _ => List.length h end in
  let current_error_rate := (inject_Z (Z.of_nat error_count) / inject_Z (Z.of_nat total_count) * 100)%Q in
  jsonify_code 200
    [("response_times", JArr (map (fun r => num (s_value r)) h));
     ("timestamps", JArr (map (fun r => JStr (s_time r)) h));
     ("error_flags", JArr (map (fun r => JBool (s_is_error r)) h));
     ("current_error_rate", num (py_round current_error_rate 2));
     ("data_points", znum (Z.of_nat (List.length h)))].

(** [get_status(health, is_down)] inside [get_services()]. *)
Definition get_status (health : Q) (is_down : bool) : string :=
  if is_down then "degraded"
  else if Qle_bool 95 health then "healthy"
  else if Qle_bool 80 health then "warning"
  else "degraded".

(** [get_services()] (the /services view).  [fault_state["latency_ms"]]
    is used in arithmetic, which raises TypeError on a non-number. *)
Definition get_services (w : world) : exc response :=
  let m := metrics w in
  let fs := fault_state w in
  let error_rate := error_rate_of m in
  let avg_response_time := avg_response_time_of m in
  let base_health := (100 - error_rate * 2)%Q in
  let base_health :=
    if Qlt_bool 200 avg_response_time
    then (base_health - (avg_response_time - 200) / 100 * 1)%Q else base_health in
  let base_health := Qmax 0 (Qmin 100 base_health) in
  let db_is_down := database_down fs in
  let db_health := if db_is_down then 0%Q else py_round (base_health - 1) 1 in
  let type_error := Exn ("unsupported operand type(s) for /: '"
                         ++ py_type_name (latency_ms fs) ++ "' and 'int'") in
  match (if high_latency fs
         then match py_num (latency_ms fs) with
              | Some q => Some (q / 100)%Q | None => None end
         else Some 0%Q) with
  | None => type_error
  | Some latency_penalty =>
    match py_num (latency_ms fs) with
    | None => type_error
    | Some lat =>
      let dbp := if db_is_down then 50%Q else 0%Q in
      Ok (jsonify_code 200
        [("load-balancer", JObj
           [("name", JStr "Load Balancer");
            ("health", num (py_round (Qmax 0 (base_health - latency_penalty)) 1));
            ("status", JStr (get_status (base_health - latency_penalty) false));
            ("requests_handled", znum (total_requests m))]);
         ("api-gateway", JObj
           [("name", JStr "API Gateway");
            ("health", num (py_round (Qmax 0 (base_health - 1 - latency_penalty)) 1));
            ("status", JStr (get_status (base_health - 1 - latency_penalty) false));
            ("avg_latency", num (py_round (avg_response_time * (3#10) + lat * (3#10)) 1))]);
         ("user-service", JObj
           [("name", JStr "User Service");
            ("health", num (py_round (Qmax 0 (base_health - 2 - dbp)) 1));
            ("status", JStr (if db_is_down then "warning" else get_status (base_health - 2) false));
            ("active_sessions", znum (Z.max 1 (total_requests m / 3)))]);
         ("order-service", JObj
           [("name", JStr "Order Service");
            ("health", num (py_round (Qmax 0 (base_health - 3 - dbp)) 1));
            ("status", JStr (if db_is_down then "degraded" else get_status (base_health - 3) false));
            ("orders_processed", znum (orders_created m))]);
         ("payment-service", JObj
           [("name", JStr "Payment Service");
            ("health", num (py_round (Qmax 0 (base_health - 4 - dbp)) 1));
            ("status", JStr (if db_is_down then "degraded" else get_status (base_health - 4) false));
            ("transactions", znum (orders_created m));
            ("total_amount", znum (total_sales m))]);
         ("database", JObj
           [("name", JStr "Database");
            ("health", num db_health);
            ("status", JStr (get_status db_health db_is_down));
            ("connections", znum (if db_is_down then 0 else Z.min 100 (Z.max 1 (total_requests m / 2))));
            ("query_time", num (if db_is_down then 0%Q else py_round (avg_response_time * (4#10)) 1));
            ("is_down", JBool db_is_down)]);
         ("redis-cache", JObj
           [("name", JStr "Redis Cache");
            ("health", num (py_round base_health 1));
            ("status", JStr (get_status base_health false));
            ("hit_rate", num (955#10));
            ("memory_usage", JStr "256MB")])])
    end
  end.

(** *** Fault control *)

Definition with_database_down (b : bool) (f : fault_t) : fault_t :=
  {| database_down := b; high_latency := high_latency f; latency_ms := latency_ms f |}.

Definition with_high_latency (b : bool) (lat : json) (f : fault_t) : fault_t :=
  {| database_down := database_down f; high_latency := b; latency_ms := lat |}.

(** [data = request.get_json() or {}] *)
Definition request_data (b : req_json) : exc json :=
  match get_json b with
  | Exn e => Exn e
  | Ok j => Ok (if truthy j then j else JObj [])
  end.

(** [inject_fault()] (POST /fault/inject). *)
Definition inject_fault (b : req_json) (w : world) : response * world :=
  let failed e := (jsonify_code 500 [("status", JStr "error");
                                     ("message", JStr ("Failed to inject fault: " ++ e))], w) in
  match request_data b with
  | Exn e => failed e
  | Ok data =>
    match json_get data "fault_type" (JStr "database_down") with
    | Exn e => failed e
    | Ok fault_type =>
      match json_get data "latency_ms" (JNum 2000) with
      | Exn e => failed e
      | Ok latency =>
        if is_str fault_type "database_down" then
          let w1 := set_fault (with_database_down true (fault_state w)) w in
          let w2 := add_log P "error" "🔴 FAULT INJECTED: Database connection failure simulated" "system" w1 in
          (jsonify_code 200
             [("status", JStr "success");
              ("message", JStr "Database failure injected. All database operations will fail.");
              ("fault_type", JStr "database_down");
              ("current_state", fault_state_json (fault_state w2))], w2)
        else if is_str fault_type "high_latency" then
          let w1 := set_fault (with_high_latency true latency (fault_state w)) w in
          let w2 := add_log P "warning" ("🟡 FAULT INJECTED: High latency (" ++ py_str P latency
                                         ++ "ms) simulated") "system" w1 in
          (jsonify_code 200
             [("status", JStr "success");
              ("message", JStr ("High latency (" ++ py_str P latency ++ "ms) injected for all requests."));
              ("fault_type", JStr "high_latency");
              ("latency_ms", latency);
              ("current_state", fault_state_json (fault_state w2))], w2)
        else
          (jsonify_code 400
             [("status", JStr "error");
              ("message", JStr ("Unknown fault type: " ++ py_str P fault_type
                                ++ ". Supported: database_down, high_latency"))], w)
      end
    end
  end.

(** [recover_fault()] (POST /fault/recover). *)
Definition recover_fault (b : req_json) (w : world) : response * world :=
  let failed e := (jsonify_code 500 [("status", JStr "error");
                                     ("message", JStr ("Failed to recover: " ++ e))], w) in
  match request_data b with
  | Exn e => failed e
  | Ok data =>
    match json_get data "fault_type" (JStr "all") with
    | Exn e => failed e
    | Ok fault_type =>
      let '(recovered, w1) :=
        if (is_str fault_type "database_down" || is_str fault_type "all")
           && database_down (fault_state w)
        then (["database_down"],
              add_log P "success" "🟢 RECOVERY: Database connection restored" "system"
                (set_fault (with_database_down false (fault_state w)) w))
        else ([], w) in
      let '(recovered, w2) :=
        if (is_str fault_type "high_latency" || is_str fault_type "all")
           && high_latency (fault_state w1)
        then ((recovered ++ ["high_latency"])%list,
              add_log P "success" "🟢 RECOVERY: Normal latency restored" "system"
                (set_fault (with_high_latency false (JNum 0) (fault_state w1)) w1))
        else (recovered, w1) in
      match recovered with
      | [] =>
        (jsonify_code 200
           [("status", JStr "info");
            ("message", JStr "No active faults to recover from.");
            ("current_state", fault_state_json (fault_state w2))], w2)
      | _ =>
        (jsonify_code 200
           [("status", JStr "success");
            ("message", JStr ("Recovered from faults: " ++ String.concat ", " recovered));
            ("recovered_faults", JArr (map JStr recovered));
            ("current_state", fault_state_json (fault_state w2))], w2)
      end
    end
  end.

(** ** The application as a whole *)

(** One inbound HTTP request. *)
Inductive op : Type :=
| Call (rt : route) (rq : request)     (* a [@monitor_request] route *)
| GetMetrics                           (* /metrics *)
| GetLogs                              (* /logs *)
| GetChartData                         (* /chart-data *)
| GetServices                          (* /services *)
| FaultStatus                          (* /fault/status *)
| InjectFault (b : req_json)           (* /fault/inject *)
| RecoverFault (b : req_json).         (* /fault/recover *)

Definition is_instrumented (o : op) : bool :=
  match o with Call _ _ => true | _ => false end.

(** Flask's dispatch: an exception escaping the view gives the generic 500. *)
Definition step (o : op) (w : world) : response * world :=
  match o with
  | Call rt rq =>
    match instrumented P rt rq w with
    | (Ok r, w') => (r, w')
    | (Exn _, w') => (flask_error, w')
    end
  | GetMetrics => (get_metrics w, w)
  | GetLogs => (get_logs w, w)
  | GetChartData => (get_chart_data w, w)
  | GetServices => (match get_services w with Ok r => r | Exn _ => flask_error end, w)
  | FaultStatus => (fault_status w, w)
  | InjectFault b => inject_fault b w
  | RecoverFault b => recover_fault b w
  end.

Fixpoint run (os : list op) (w : world) : world :=
  match os with
  | [] => w
  | o :: os' => run os' (snd (step o w))
  end.

End Endpoints.

(** The state at import time of [app.py], the process starting at [t0]. *)
Definition init_world (t0 : Q) (tf : toggles_file_t) : world :=
  {| metrics := {| total_requests := 0; error_requests := 0; total_response_time := 0;
                   orders_created := 0; total_sales := 0;
                   last_request_time := t0; uptime_start := t0 |};
     response_time_history := [];
     log_history := [];
     fault_state := {| database_down := false; high_latency := false; latency_ms := JNum 0 |};
     clock := t0;
     toggles_file := tf |}.

(** Placeholder printers for concrete runs. *)
Definition P0 : printers :=
  {| strftime := fun _ _ => "00:00:00"; py_str := fun _ => "?"; fmt_fixed2 := fun _ => "?" |}.

Definition rq_plain (d : Q) : request :=
  {| rq_form := []; rq_args := []; rq_duration := d; rq_overshoot := 0 |}.

Example index_ok :
  fst (step P0 (Call RIndex (rq_plain (1#20))) (init_world 0 TFMissing)) =
  render "cart.html" [("cart", cart_json (calculate_cart_totals mock_cart_items)); ("nudge_message", JNull)].
Proof. reflexivity. Qed.

Example db_down_call :
  fst (step P0 (Call RCheckout (rq_plain 0))
         (run P0 [InjectFault (JsonBody (JObj [("fault_type", JStr "database_down")]))]
            (init_world 0 TFMissing))) = db_unavailable_response.
Proof. reflexivity. Qed.

(** ** Frame lemmas *)

(** The counters the instrumentation owns. *)
Definition counters (w : world) : Z * Z * Q :=
  (total_requests (metrics w), error_requests (metrics w), total_response_time (metrics w)).

Ltac case_matches :=
  repeat (simpl in *;
          match goal with
          | |- context [if ?c then _ else _] =>
              let E := fresh "E" in destruct c eqn:E
          | |- context [match ?x with _ => _ end] =>
              let E := fresh "E" in destruct x eqn:E
          end); simpl in *.

Lemma add_log_frame (P : printers) l m c w :
  metrics (add_log P l m c w) = metrics w /\
  response_time_history (add_log P l m c w) = response_time_history w /\
  fault_state (add_log P l m c w) = fault_state w /\
  clock (add_log P l m c w) = clock w.
Proof. repeat split. Qed.

Lemma inject_fault_frame (P : printers) b w :
  metrics (snd (inject_fault P b w)) = metrics w /\
  response_time_history (snd (inject_fault P b w)) = response_time_history w /\
  status_code (fst (inject_fault P b w)) <> 503.
Proof.
  unfold inject_fault; case_matches; repeat split; discriminate.
Qed.

Lemma recover_fault_frame (P : printers) b w :
  metrics (snd (recover_fault P b w)) = metrics w /\
  response_time_history (snd (recover_fault P b w)) = response_time_history w /\
  status_code (fst (recover_fault P b w)) <> 503.
Proof.
  unfold recover_fault; case_matches; repeat split; discriminate.
Qed.

(** A view leaves the instrumentation counters, the history and the fault
    state alone. *)
Definition view_frame (f : handler) : Prop :=
  forall w,
    total_requests (metrics (snd (f w))) = total_requests (metrics w) /\
    error_requests (metrics (snd (f w))) = error_requests (metrics w) /\
    response_time_history (snd (f w)) = response_time_history w /\
    fault_state (snd (f w)) = fault_state w.

Lemma view_is_frame (P : printers) rt rq : view_frame (view P rt rq).
Proof.
  intro w; unfold view.
  destruct rt; unfold index, checkout_options, payment, success, checkout;
  case_matches; repeat split.
Qed.

Lemma call_view_frame (P : printers) rt rq : view_frame (call_view P rt rq).
Proof.
  intro w; unfold call_view.
  destruct (view_is_frame P rt rq w) as [F1 [F2 [F3 F4]]].
  destruct (view P rt rq w) as [o w'] eqn:E; simpl in *; auto.
Qed.

Lemma call_view_clock (P : printers) rt rq w :
  clock (snd (call_view P rt rq w)) =
  (clock (snd (view P rt rq w)) + rq_duration rq)%Q.
Proof.
  unfold call_view; destruct (view P rt rq w); reflexivity.
Qed.

Lemma view_clock (P : printers) rt rq w :
  clock (snd (view P rt rq w)) = clock w.
Proof.
  unfold view.
  destruct rt; unfold index, checkout_options, payment, success, checkout;
  case_matches; reflexivity.
Qed.

Lemma push_history_length h s :
  (List.length h <= MAX_HISTORY_POINTS)%nat ->
  (List.length (push_history h s) <= MAX_HISTORY_POINTS)%nat.
Proof.
  unfold push_history; intro H.
  destruct (Nat.ltb_spec MAX_HISTORY_POINTS (List.length (h ++ [s])%list)) as [Hl | Hl].
  - destruct h as [|x h]; simpl in *; [lia|].
    rewrite length_app in *; simpl in *; lia.
  - lia.
Qed.

(** What every reachable state satisfies. *)
Definition reachable_inv (w : world) : Prop :=
  error_requests (metrics w) <= total_requests (metrics w) /\
  (List.length (response_time_history w) <= MAX_HISTORY_POINTS)%nat /\
  (high_latency (fault_state w) = false -> latency_ms (fault_state w) = JNum 0).

Ltac inv_close :=
  unfold reachable_inv; simpl; repeat split; try lia;
  try (apply push_history_length; auto); try (intro; congruence); auto.

Lemma monitor_request_inv (P : printers) ov f w :
  view_frame f -> reachable_inv w -> reachable_inv (snd (monitor_request P ov f w)).
Proof.
  intros Hf [H1 [H2 H3]].
  unfold monitor_request; simpl.
  destruct (high_latency (fault_state w)) eqn:Ehl; simpl;
    [destruct (py_num (latency_ms (fault_state w))) as [q|] eqn:Eq; simpl;
     [destruct (Qlt_bool 0 q); simpl|]|].
  all: try (solve [inv_close]).
  all: destruct (database_down (fault_state w)) eqn:Edb; simpl.
  all: try (solve [inv_close]).
  all: match goal with
       | Hg : view_frame ?g |- context [?g ?w2] =>
           destruct (Hg w2) as [F1 [F2 [F3 F4]]];
           destruct (g w2) as [[r|e] w3] eqn:Ef; simpl in *
       end.
  all: unfold reachable_inv; simpl; repeat split; try lia;
       try (apply push_history_length; rewrite F3; auto);
       try (rewrite F3; auto);
       try rewrite F4; simpl; try (intro; congruence); auto.
Qed.

Lemma inject_fault_latency_inv (P : printers) b w :
  (high_latency (fault_state w) = false -> latency_ms (fault_state w) = JNum 0) ->
  high_latency (fault_state (snd (inject_fault P b w))) = false ->
  latency_ms (fault_state (snd (inject_fault P b w))) = JNum 0.
Proof.
  intro H; unfold inject_fault; case_matches; auto; discriminate.
Qed.

Lemma recover_fault_latency_inv (P : printers) b w :
  (high_latency (fault_state w) = false -> latency_ms (fault_state w) = JNum 0) ->
  high_latency (fault_state (snd (recover_fault P b w))) = false ->
  latency_ms (fault_state (snd (recover_fault P b w))) = JNum 0.
Proof.
  intro H; unfold recover_fault; case_matches; auto.
Qed.

Lemma step_inv (P : printers) o w :
  reachable_inv w -> reachable_inv (snd (step P o w)).
Proof.
  intros Hw.
  destruct o as [rt rq| | | | | |b|b]; simpl; auto.
  - pose proof (monitor_request_inv P (rq_overshoot rq) (call_view P rt rq) w
                  (call_view_frame P rt rq) Hw) as Hm.
    unfold instrumented; destruct (monitor_request P _ _ w) as [[r|e] w'];
    exact Hm.
  - destruct Hw as [H1 [H2 H3]].
    destruct (inject_fault_frame P b w) as [F1 [F2 _]].
    unfold reachable_inv; rewrite F1, F2; repeat split; auto.
    apply inject_fault_latency_inv; auto.
  - destruct Hw as [H1 [H2 H3]].
    destruct (recover_fault_frame P b w) as [F1 [F2 _]].
    unfold reachable_inv; rewrite F1, F2; repeat split; auto.
    apply recover_fault_latency_inv; auto.
Qed.

Lemma init_inv t0 tf : reachable_inv (init_world t0 tf).
Proof. unfold reachable_inv; simpl; repeat split; auto; lia. Qed.

Lemma run_inv (P : printers) os w :
  reachable_inv w -> reachable_inv (run P os w).
Proof.
  revert w; induction os as [|o os IH]; intros w Hw; simpl; auto.
  apply IH, step_inv, Hw.
Qed.

Lemma run_reachable (P : printers) os t0 tf :
  reachable_inv (run P os (init_world t0 tf)).
Proof. apply run_inv, init_inv. Qed.

Lemma get_services_code w r :
  get_services w = Ok r -> status_code r = 200.
Proof.
  unfold get_services; intro H.
  repeat lazymatch type of H with
  | (match ?x with _ => _ end) = _ => destruct x; try discriminate
  end.
  injection H as <-; reflexivity.
Qed.

Lemma tl_skipn {A} (k : nat) (x : list A) : tl (skipn k x) = skipn (S k) x.
Proof.
  revert x; induction k as [|k IH]; intros [|a x]; simpl; auto.
Qed.

Lemma push_history_lastn l s :
  push_history (lastn MAX_HISTORY_POINTS l) s = lastn MAX_HISTORY_POINTS (l ++ [s])%list.
Proof.
  unfold push_history, lastn, MAX_HISTORY_POINTS.
  assert (Hk : (skipn (List.length l - 20) l ++ [s])%list
               = skipn (List.length l - 20) (l ++ [s])%list).
  { rewrite skipn_app. f_equal.
    replace (List.length l - 20 - List.length l)%nat with 0%nat by lia. reflexivity. }
  rewrite Hk, length_skipn, !length_app; simpl.
  destruct (Nat.ltb_spec 20 (List.length l + 1 - (List.length l - 20))) as [H|H].
  - rewrite tl_skipn; f_equal; lia.
  - f_equal; lia.
Qed.

Lemma fold_push_history l ss :
  fold_left push_history ss (lastn MAX_HISTORY_POINTS l)
  = lastn MAX_HISTORY_POINTS (l ++ ss)%list.
Proof.
  revert l; induction ss as [|s ss IH]; intro l; simpl.
  - rewrite app_nil_r; reflexivity.
  - rewrite push_history_lastn, IH, <- app_assoc; reflexivity.
Qed.

Lemma length_lastn {A} n (l : list A) : (List.length (lastn n l) <= n)%nat.
Proof. unfold lastn; rewrite length_skipn; lia. Qed.

(** ** Claims *)

(** C4: starting from the initial state (both counters 0), after any
    sequence of operations (instrumented requests that succeed, are
    short-circuited by a fault or raise, and every non-instrumented
    endpoint), [error_requests <= total_requests].  Every prefix of a run
    is itself a run, so the bound holds after every operation. *)
Theorem error_requests_le_total (P : printers) (os : list op) (t0 : Q) (tf : toggles_file_t) :
  error_requests (metrics (run P os (init_world t0 tf)))
  <= total_requests (metrics (run P os (init_world t0 tf))).
Proof. apply (run_reachable P os t0 tf). Qed.

(** C10: the observability and fault-control endpoints (/metrics, /logs,
    /chart-data, /services, /fault/status, /fault/inject, /fault/recover)
    are not instrumented: they leave [total_requests], [error_requests],
    [total_response_time] and the response-time history unchanged, and
    never answer with the database-down short-circuit response, whatever
    the fault state. *)
Theorem uninstrumented_endpoints_frame (P : printers) (o : op) (w : world) :
  is_instrumented o = false ->
  counters (snd (step P o w)) = counters w /\
  response_time_history (snd (step P o w)) = response_time_history w /\
  fst (step P o w) <> db_unavailable_response.
Proof.
  intro Hi; unfold counters.
  destruct o as [rt rq| | | | | |b|b]; simpl in Hi; try discriminate; simpl;
    try (repeat split; discriminate).
  - split; [reflexivity | split; [reflexivity | ]].
    destruct (get_services w) as [r|e] eqn:E; [|discriminate].
    intro Eq; pose proof (get_services_code w r E) as C.
    rewrite Eq in C; simpl in C; discriminate.
  - destruct (inject_fault_frame P b w) as [F1 [F2 F3]].
    rewrite F1, F2; repeat split; intro E; apply F3; rewrite E; reflexivity.
  - destruct (recover_fault_frame P b w) as [F1 [F2 F3]].
    rewrite F1, F2; repeat split; intro E; apply F3; rewrite E; reflexivity.
Qed.

(** C5: the response-time history is a FIFO of capacity 20.  Starting from
    the empty history of the process, appending any sequence of samples
    leaves exactly the last 20 of them, oldest first (so at most 20); and
    in every reachable state of the application the history holds at most
    20 samples. *)
Theorem response_history_fifo :
  (forall ss : list sample,
     fold_left push_history ss [] = lastn MAX_HISTORY_POINTS ss /\
     (List.length (fold_left push_history ss []) <= MAX_HISTORY_POINTS)%nat) /\
  (forall (P : printers) (os : list op) (t0 : Q) (tf : toggles_file_t),
     (List.length (response_time_history (run P os (init_world t0 tf))) <= MAX_HISTORY_POINTS)%nat).
Proof.
  split.
  - intro ss.
    assert (E : fold_left push_history ss [] = lastn MAX_HISTORY_POINTS ss)
      by exact (fold_push_history [] ss).
    rewrite E; split; [reflexivity | apply length_lastn].
  - intros P os t0 tf; apply (run_reachable P os t0 tf).
Qed.

(** ** Shapes of the buffers after one append *)

Lemma push_history_last h s : exists pre, push_history h s = (pre ++ [s])%list.
Proof.
  unfold push_history.
  destruct (Nat.ltb_spec MAX_HISTORY_POINTS (List.length (h ++ [s])%list)) as [H|H].
  - destruct h as [|x h]; simpl in *; [unfold MAX_HISTORY_POINTS in H; lia|].
    exists h; reflexivity.
  - exists h; reflexivity.
Qed.

Lemma lastn_app_last {A} n (l : list A) (e : A) :
  (1 <= n)%nat -> exists pre, lastn n (l ++ [e])%list = (pre ++ [e])%list.
Proof.
  intro Hn; unfold lastn; rewrite length_app; simpl.
  rewrite skipn_app.
  replace (List.length l + 1 - n - List.length l)%nat with 0%nat by lia.
  exists (skipn (List.length l + 1 - n) l); reflexivity.
Qed.

Lemma record_sample_last (P : printers) v b w :
  exists pre s, response_time_history (record_sample P v b w) = (pre ++ [s])%list /\
                s_value s = v /\ s_is_error s = b.
Proof.
  unfold record_sample; simpl.
  match goal with |- context [push_history ?h ?s] =>
    destruct (push_history_last h s) as [pre E]; rewrite E; exists pre, s; auto
  end.
Qed.

Lemma add_log_last (P : printers) lvl msg cat w :
  exists pre e, log_history (add_log P lvl msg cat w) = (pre ++ [e])%list /\
                l_level e = lvl /\ l_message e = msg.
Proof.
  unfold add_log; simpl.
  match goal with |- context [(log_history w ++ [?e])%list] =>
    destruct (Nat.ltb 100 (List.length (log_history w ++ [e])%list));
    [destruct (lastn_app_last 100 (log_history w) e) as [pre E]; [lia|];
     rewrite E; exists pre, e; auto
    | exists (log_history w), e; auto]
  end.
Qed.

(** The latency guard of [monitor_request] does not raise. *)
Definition latency_guard_ok (f : fault_t) : Prop :=
  high_latency f = true -> py_num (latency_ms f) <> None.

(** [monitor_request] once the latency guard has been passed: [sd] is the
    sleep it performed, [w2] the state the fault check and the view see. *)
Lemma monitor_request_unfold (P : printers) ov f w :
  latency_guard_ok (fault_state w) ->
  exists sd : option Q,
    (sd = None \/ exists L, high_latency (fault_state w) = true /\
                           py_num (latency_ms (fault_state w)) = Some L /\
                           Qlt_bool 0 L = true /\ sd = Some (L / 1000 + ov)%Q) /\
    (forall L, high_latency (fault_state w) = true ->
     py_num (latency_ms (fault_state w)) = Some L ->
     Qlt_bool 0 L = true -> sd = Some (L / 1000 + ov)%Q) /\
    let w1 := set_metrics (start_request (clock w) (metrics w)) w in
    let w2 := match sd with Some d => advance d w1 | None => w1 end in
    monitor_request P ov f w =
    if database_down (fault_state w) then
      let w3 := set_metrics (incr_errors (metrics w2)) w2 in
      let w4 := record_sample P ((clock w3 - clock w) * 1000)%Q true w3 in
      (Ok db_unavailable_response,
       add_log P "error" "Database connection failed - Service unavailable" "error" w4)
    else
      match f w2 with
      | (Ok result, w3) =>
        let response_time := (clock w3 - clock w)%Q in
        let w4 := set_metrics (add_response_time response_time (metrics w3)) w3 in
        (Ok result, record_sample P (response_time * 1000)%Q false w4)
      | (Exn e, w3) =>
        let w4 := set_metrics (incr_errors (metrics w3)) w3 in
        (Exn e, add_log P "error" ("Request failed: " ++ e) "error" w4)
      end.
Proof.
  intro Hg; unfold latency_guard_ok in Hg.
  unfold monitor_request; simpl.
  destruct (high_latency (fault_state w)) eqn:Ehl; simpl.
  - destruct (py_num (latency_ms (fault_state w))) as [q|] eqn:Eq;
      [| exfalso; apply (Hg eq_refl); reflexivity].
    destruct (Qlt_bool 0 q) eqn:Elt; simpl.
    + exists (Some (q / 1000 + ov)%Q); split; [right; exists q; auto|].
      split; [intros L _ HL _; injection HL as <-; reflexivity|].
      reflexivity.
    + exists None; split; [left; reflexivity|].
      split; [intros L _ HL HL'; injection HL as <-; congruence|].
      reflexivity.
  - exists None; split; [left; reflexivity|].
    split; [discriminate|].
    reflexivity.
Qed.

Lemma Qlt_bool_true (a b : Q) : (a < b)%Q -> Qlt_bool a b = true.
Proof.
  intro H; unfold Qlt_bool.
  destruct (Qle_bool b a) eqn:E; [|reflexivity].
  apply Qle_bool_iff in E; exfalso; apply (Qlt_not_le a b H E).
Qed.

Section FrameRewrites.
Variable P : printers.

Lemma add_log_metrics l m c w : metrics (add_log P l m c w) = metrics w.
Proof. reflexivity. Qed.
Lemma add_log_history l m c w :
  response_time_history (add_log P l m c w) = response_time_history w.
Proof. reflexivity. Qed.
Lemma add_log_fault l m c w : fault_state (add_log P l m c w) = fault_state w.
Proof. reflexivity. Qed.
Lemma add_log_clock l m c w : clock (add_log P l m c w) = clock w.
Proof. reflexivity. Qed.
Lemma record_sample_metrics v b w : metrics (record_sample P v b w) = metrics w.
Proof. reflexivity. Qed.
Lemma record_sample_logs v b w : log_history (record_sample P v b w) = log_history w.
Proof. reflexivity. Qed.
Lemma record_sample_fault v b w : fault_state (record_sample P v b w) = fault_state w.
Proof. reflexivity. Qed.
Lemma record_sample_clock v b w : clock (record_sample P v b w) = clock w.
Proof. reflexivity. Qed.
End FrameRewrites.

Lemma set_metrics_metrics m w : metrics (set_metrics m w) = m.
Proof. reflexivity. Qed.
Lemma set_metrics_history m w :
  response_time_history (set_metrics m w) = response_time_history w.
Proof. reflexivity. Qed.
Lemma set_metrics_logs m w : log_history (set_metrics m w) = log_history w.
Proof. reflexivity. Qed.
Lemma set_metrics_fault m w : fault_state (set_metrics m w) = fault_state w.
Proof. reflexivity. Qed.
Lemma set_metrics_clock m w : clock (set_metrics m w) = clock w.
Proof. reflexivity. Qed.

Create Rewrite HintDb frame.
#[global] Hint Rewrite add_log_metrics add_log_history add_log_fault add_log_clock
  record_sample_metrics record_sample_logs record_sample_fault record_sample_clock
  set_metrics_metrics set_metrics_history set_metrics_logs set_metrics_fault
  set_metrics_clock : frame.

(** What the database-down short-circuit does to the state. *)
Lemma db_down_effects (P : printers) (ov : Q) (f : handler) (w : world) :
  database_down (fault_state w) = true ->
  latency_guard_ok (fault_state w) ->
  fst (monitor_request P ov f w) = Ok db_unavailable_response /\
  total_requests (metrics (snd (monitor_request P ov f w))) = total_requests (metrics w) + 1 /\
  error_requests (metrics (snd (monitor_request P ov f w))) = error_requests (metrics w) + 1 /\
  (exists pre s, response_time_history (snd (monitor_request P ov f w)) = (pre ++ [s])%list /\
                 s_is_error s = true) /\
  (exists pre e, log_history (snd (monitor_request P ov f w)) = (pre ++ [e])%list /\
                 l_level e = "error").
Proof.
  intros Hdb Hg.
  destruct (monitor_request_unfold P ov f w Hg) as [sd [_ [_ E]]].
  rewrite E, Hdb; cbn zeta iota beta; cbn [fst snd].
  split; [reflexivity|].
  autorewrite with frame.
  split; [destruct sd; reflexivity|].
  split; [destruct sd; reflexivity|].
  split.
  - match goal with |- context [record_sample P ?v ?b ?w3] =>
      destruct (record_sample_last P v b w3) as [pre [s [Hs [_ Hb]]]]
    end.
    rewrite Hs; eauto.
  - match goal with |- context [add_log P ?l ?m ?c ?w4] =>
      destruct (add_log_last P l m c w4) as [pre [e [He [Hl _]]]]
    end.
    rewrite He; eauto.
Qed.

(** Under [database_down] the outcome of [monitor_request] does not depend
    on the view. *)
Lemma db_down_view_irrelevant (P : printers) (ov : Q) (f g : handler) (w : world) :
  database_down (fault_state w) = true ->
  latency_guard_ok (fault_state w) ->
  monitor_request P ov g w = monitor_request P ov f w.
Proof.
  intros Hdb Hg.
  destruct (monitor_request_unfold P ov f w Hg) as [sd [Hsd [Hsd2 E]]].
  destruct (monitor_request_unfold P ov g w Hg) as [sd' [Hsd' [Hsd3 Eg]]].
  rewrite Eg, E, Hdb.
  assert (sd' = sd) as ->; [|reflexivity].
  destruct Hsd as [-> | [L [H1 [H2 [H3 ->]]]]];
  destruct Hsd' as [-> | [L' [H1' [H2' [H3' ->]]]]];
  first [reflexivity | symmetry; eapply Hsd2; eassumption | eapply Hsd3; eassumption].
Qed.


Lemma call_view_clock_total (P : printers) rt rq w :
  clock (snd (call_view P rt rq w)) = (clock w + rq_duration rq)%Q.
Proof. rewrite call_view_clock, view_clock; reflexivity. Qed.


(** The three input checks of [checkout()] that answer 403 or 400 before
    any order is placed (the [if] chain of the view), for the loaded
    toggles [kvs]. *)
Definition validation_rejects (kvs : list (string * json)) (rq : request) : bool :=
  let payment_method := form_get_default rq "payment_method" "credit_card" in
  let enable_cod := match assoc_get "enable_cod" kvs with Some v => v | None => JBool false end in
  (String.eqb payment_method "cod" && negb (truthy enable_cod))
  || (String.eqb payment_method "credit_card"
      && (form_missing rq "card_number" || form_missing rq "expiry_date" || form_missing rq "cvv"))
  || (negb (String.eqb payment_method "cod") && negb (String.eqb payment_method "credit_card")).

Lemma checkout_rejects (rq : request) (w : world) kvs :
  load_toggles (toggles_file w) = Ok (JObj kvs) ->
  validation_rejects kvs rq = true ->
  exists r, (status_code r = 403 \/ status_code r = 400) /\
            forall w', toggles_file w' = toggles_file w -> checkout rq w' = (Ok r, w').
Proof.
  intros Ht Hv; unfold validation_rejects in Hv.
  destruct (String.eqb (form_get_default rq "payment_method" "credit_card") "cod") eqn:Ecod;
  destruct (String.eqb (form_get_default rq "payment_method" "credit_card") "credit_card") eqn:Ecc;
  destruct (truthy (match assoc_get "enable_cod" kvs with Some v => v | None => JBool false end)) eqn:Etr;
  destruct (form_missing rq "card_number" || form_missing rq "expiry_date" || form_missing rq "cvv") eqn:Em;
  simpl in Hv; try discriminate;
  try (apply String.eqb_eq in Ecod; apply String.eqb_eq in Ecc; congruence);
  eexists; (split; [| intros w' Ht'; unfold checkout; rewrite Ht', Ht; simpl json_get;
                      cbn zeta; rewrite ?Ecod, ?Ecc, ?Etr, ?Em; reflexivity]);
  simpl; auto.
Qed.

(** The exception raised in the body of [checkout()] before any check,
    if any: [load_toggles()] raising, or [toggles.get('enable_cod', False)]
    raising because toggles.json does not hold a dict. *)
Definition checkout_toggles_error (f : toggles_file_t) : option string :=
  match load_toggles f with
  | Exn e => Some e
  | Ok toggles =>
    match json_get toggles "enable_cod" (JBool false) with
    | Exn e => Some e
    | Ok _ => None
    end
  end.

Lemma checkout_raising_toggles (rq : request) (w : world) e :
  checkout_toggles_error (toggles_file w) = Some e ->
  checkout rq w =
  (Ok (jsonify_code 500 [("status", JStr "error"); ("message", JStr ("系統錯誤: " ++ e))]), w).
Proof.
  unfold checkout_toggles_error, checkout.
  destruct (load_toggles (toggles_file w)) as [t|e']; [|intro H; injection H as ->; reflexivity].
  destruct (json_get t "enable_cod" (JBool false)) as [v|e']; [discriminate|].
  intro H; injection H as ->; reflexivity.
Qed.

(** An instrumented call whose view returns normally, after the fault
    check let it through. *)
Lemma monitor_request_view_ok (P : printers) ov f w r :
  database_down (fault_state w) = false ->
  latency_guard_ok (fault_state w) ->
  (forall w2, fault_state w2 = fault_state w -> toggles_file w2 = toggles_file w ->
              metrics w2 = start_request (clock w) (metrics w) ->
              exists w3, f w2 = (Ok r, w3) /\ metrics w3 = metrics w2 /\
                         log_history w3 = log_history w2) ->
  fst (monitor_request P ov f w) = Ok r /\
  total_requests (metrics (snd (monitor_request P ov f w))) = total_requests (metrics w) + 1 /\
  error_requests (metrics (snd (monitor_request P ov f w))) = error_requests (metrics w) /\
  orders_created (metrics (snd (monitor_request P ov f w))) = orders_created (metrics w) /\
  total_sales (metrics (snd (monitor_request P ov f w))) = total_sales (metrics w) /\
  log_history (snd (monitor_request P ov f w)) = log_history w /\
  (exists pre s, response_time_history (snd (monitor_request P ov f w)) = (pre ++ [s])%list /\
                 s_is_error s = false).
Proof.
  intros Hdb Hg Hf.
  destruct (monitor_request_unfold P ov f w Hg) as [sd [_ [_ E]]].
  rewrite E, Hdb; cbn zeta iota beta.
  set (w2 := match sd with Some d => advance d _ | None => _ end).
  destruct (Hf w2) as [w3 [Ef [Hm Hl]]]; [destruct sd; reflexivity .. |].
  rewrite Ef; cbn [fst snd].
  match goal with |- context [record_sample P ?v ?b ?w4] =>
    destruct (record_sample_last P v b w4) as [pre [s [Hs [_ Hb]]]]
  end.
  autorewrite with frame.
  rewrite Hs, Hl, Hm.
  unfold w2; destruct sd; simpl; repeat split; eauto.
Qed.

(** C9: a checkout rejected by input validation (cash on delivery while
    the toggle is off, a credit card with a missing field, or an unknown
    payment method) places no order: [orders_created], [total_sales] and
    [error_requests] are unchanged, while [total_requests] goes up by one
    and the sample appended has [is_error = false].  The call reaches the
    validation only when [database_down] is off, the latency guard does
    not raise, and the toggles load as a dict. *)
Theorem checkout_rejection_no_order (P : printers) (rq : request) (w : world)
    (kvs : list (string * json)) :
  database_down (fault_state w) = false ->
  latency_guard_ok (fault_state w) ->
  load_toggles (toggles_file w) = Ok (JObj kvs) ->
  validation_rejects kvs rq = true ->
  (exists r, fst (instrumented P RCheckout rq w) = Ok r /\
             (status_code r = 403 \/ status_code r = 400)) /\
  orders_created (metrics (snd (instrumented P RCheckout rq w))) = orders_created (metrics w) /\
  total_sales (metrics (snd (instrumented P RCheckout rq w))) = total_sales (metrics w) /\
  error_requests (metrics (snd (instrumented P RCheckout rq w))) = error_requests (metrics w) /\
  total_requests (metrics (snd (instrumented P RCheckout rq w))) = total_requests (metrics w) + 1 /\
  (exists pre s, response_time_history (snd (instrumented P RCheckout rq w)) = (pre ++ [s])%list /\
                 s_is_error s = false).
Proof.
  intros Hdb Hg Ht Hv.
  destruct (checkout_rejects rq w kvs Ht Hv) as [r [Hcode Hc]].
  destruct (monitor_request_view_ok P (rq_overshoot rq) (call_view P RCheckout rq) w r Hdb Hg)
    as [A [B [C [D [E [_ F]]]]]].
  { intros w2 Hf2 Ht2 Hm2.
    exists (advance (rq_duration rq) w2).
    unfold call_view; simpl view; rewrite (Hc w2 Ht2).
    repeat split. }
  unfold instrumented.
  split; [exists r; auto|].
  auto.
Qed.

(** C3 (as the code has it): a request short-circuited by [database_down]
    and an exception escaping a wrapped view both increment
    [error_requests] and append an error log entry (a view of this
    application leaves the counters alone: [view_frame]).  The checkout view,
    however, catches every exception of its own body (the toggles file
    cannot be read or parsed, or does not hold a dict) and returns a 500
    JSON response; the wrapper sees a
    normal return and records a success: [error_requests] and the log are
    unchanged, and the sample appended has [is_error = false]. *)
Theorem error_paths_recorded (P : printers) :
  (forall ov f w,
     database_down (fault_state w) = true ->
     latency_guard_ok (fault_state w) ->
     error_requests (metrics (snd (monitor_request P ov f w))) = error_requests (metrics w) + 1 /\
     exists pre e, log_history (snd (monitor_request P ov f w)) = (pre ++ [e])%list /\
                   l_level e = "error") /\
  (forall ov f w msg,
     view_frame f ->
     latency_guard_ok (fault_state w) ->
     fst (monitor_request P ov f w) = Exn msg ->
     error_requests (metrics (snd (monitor_request P ov f w))) = error_requests (metrics w) + 1 /\
     exists pre e, log_history (snd (monitor_request P ov f w)) = (pre ++ [e])%list /\
                   l_level e = "error" /\ l_message e = ("Request failed: " ++ msg)) /\
  (forall rq w msg,
     database_down (fault_state w) = false ->
     latency_guard_ok (fault_state w) ->
     checkout_toggles_error (toggles_file w) = Some msg ->
     fst (instrumented P RCheckout rq w) =
       Ok (jsonify_code 500 [("status", JStr "error"); ("message", JStr ("系統錯誤: " ++ msg))]) /\
     error_requests (metrics (snd (instrumented P RCheckout rq w))) = error_requests (metrics w) /\
     log_history (snd (instrumented P RCheckout rq w)) = log_history w /\
     exists pre s, response_time_history (snd (instrumented P RCheckout rq w)) = (pre ++ [s])%list /\
                   s_is_error s = false).
Proof.
  split; [|split].
  - intros ov f w Hdb Hg.
    destruct (db_down_effects P ov f w Hdb Hg) as [_ [_ [C [_ F]]]]; auto.
  - intros ov f w msg Hf Hg Hexn.
    destruct (monitor_request_unfold P ov f w Hg) as [sd [_ [_ E]]].
    rewrite E in *.
    destruct (database_down (fault_state w)); cbn zeta iota beta in *; [discriminate|].
    set (w2 := match sd with Some d => advance d _ | None => _ end) in *.
    destruct (Hf w2) as [_ [F2 _]].
    destruct (f w2) as [[r|e] w3]; cbn [fst snd] in *; [discriminate|].
    injection Hexn as ->.
    autorewrite with frame.
    split; [simpl; rewrite F2; unfold w2; destruct sd; reflexivity|].
    match goal with |- context [add_log P ?l ?m ?c ?w4] =>
      destruct (add_log_last P l m c w4) as [pre [e [He [Hl Hm]]]]
    end.
    rewrite He; eauto.
  - intros rq w msg Hdb Hg Ht.
    destruct (monitor_request_view_ok P (rq_overshoot rq) (call_view P RCheckout rq) w
                (jsonify_code 500 [("status", JStr "error"); ("message", JStr ("系統錯誤: " ++ msg))])
                Hdb Hg) as [A [B [C [D [E [G F]]]]]].
    { intros w2 Hf2 Ht2 Hm2.
      exists (advance (rq_duration rq) w2).
      unfold call_view; simpl view.
      rewrite (checkout_raising_toggles rq w2 msg) by (rewrite Ht2; exact Ht).
      repeat split. }
    unfold instrumented; auto.
Qed.

Definition active_faults_of (f : fault_t) : list string :=
  ((if database_down f then ["database_down"] else [])
   ++ (if high_latency f then ["high_latency"] else []))%list.

Definition recover_all_body : req_json := JsonBody (JObj [("fault_type", JStr "all")]).

Lemma recover_noop (P : printers) w kvs :
  database_down (fault_state w) = false ->
  high_latency (fault_state w) = false ->
  step P (RecoverFault (JsonBody (JObj kvs))) w =
  (jsonify_code 200 [("status", JStr "info");
                     ("message", JStr "No active faults to recover from.");
                     ("current_state", fault_state_json (fault_state w))], w).
Proof.
  intros H1 H2; simpl; unfold recover_fault, request_data, get_json.
  destruct (truthy (JObj kvs)); cbn [json_get];
  rewrite H1, andb_false_r; cbn zeta iota beta;
  rewrite H2, andb_false_r; reflexivity.
Qed.

(** C7: from any reachable state, [recover("all")] leaves
    [database_down = false], [high_latency = false] and [latency_ms = 0];
    its answer lists exactly the faults that were active ("success"), or
    is the informational "info" answer when none was.  A second recover
    right after it, whatever its [fault_type], is that informational
    answer (the empty list of recovered faults is signalled by status
    "info" and its message; the payload carries no [recovered_faults]
    key) and leaves the fault state unchanged.  Whenever a recover clears
    [high_latency], [latency_ms] is reset to 0. *)
Theorem recover_idempotent (P : printers) (os : list op) (t0 : Q) (tf : toggles_file_t) :
  let w := run P os (init_world t0 tf) in
  let r1 := fst (step P (RecoverFault recover_all_body) w) in
  let w1 := snd (step P (RecoverFault recover_all_body) w) in
  fault_state w1 = {| database_down := false; high_latency := false; latency_ms := JNum 0 |} /\
  json_field "status" r1 =
    Some (JStr (match active_faults_of (fault_state w) with [] => "info" | _ => "success" end)) /\
  json_field "recovered_faults" r1 =
    (match active_faults_of (fault_state w) with
     | [] => None | l => Some (JArr (map JStr l)) end) /\
  (forall kvs,
     let r2 := fst (step P (RecoverFault (JsonBody (JObj kvs))) w1) in
     let w2 := snd (step P (RecoverFault (JsonBody (JObj kvs))) w1) in
     json_field "status" r2 = Some (JStr "info") /\
     json_field "message" r2 = Some (JStr "No active faults to recover from.") /\
     json_field "recovered_faults" r2 = None /\
     fault_state w2 = fault_state w1) /\
  (forall b w',
     high_latency (fault_state w') = true ->
     high_latency (fault_state (snd (step P (RecoverFault b) w'))) = false ->
     latency_ms (fault_state (snd (step P (RecoverFault b) w'))) = JNum 0).
Proof.
  intros w r1 w1.
  destruct (run_reachable P os t0 tf) as [_ [_ Hlat]]; fold w in Hlat.
  assert (Hw1 : fault_state w1 = {| database_down := false; high_latency := false;
                                    latency_ms := JNum 0 |}).
  { unfold w1; simpl; unfold recover_fault, recover_all_body; simpl.
    destruct (fault_state w) as [db hl lat] eqn:Ef; simpl in *.
    rewrite ?Ef; simpl.
    destruct db, hl; simpl; rewrite ?Ef; simpl;
      unfold with_database_down, with_high_latency; simpl; rewrite ?Ef;
      try reflexivity; rewrite (Hlat eq_refl); reflexivity. }
  split; [exact Hw1|].
  split; [|split; [|split]].
  - unfold r1; simpl; unfold recover_fault, recover_all_body, active_faults_of; simpl.
    destruct (fault_state w) as [db hl lat] eqn:Ef; simpl.
    destruct db; simpl; autorewrite with frame; simpl; rewrite ?Ef; simpl;
      destruct hl; reflexivity.
  - unfold r1; simpl; unfold recover_fault, recover_all_body, active_faults_of; simpl.
    destruct (fault_state w) as [db hl lat] eqn:Ef; simpl.
    destruct db; simpl; autorewrite with frame; simpl; rewrite ?Ef; simpl;
      destruct hl; reflexivity.
  - intro kvs.
    rewrite (recover_noop P w1 kvs) by (rewrite Hw1; reflexivity).
    repeat split.
  - intros b w' Hhl Hhl'.
    revert Hhl'; simpl; unfold recover_fault.
    case_matches; congruence.
Qed.

(** ** Concrete scenarios *)

Definition num_field_is (k : string) (q : Q) (r : response) : bool :=
  match json_field k r with Some (JNum x) => Qeq_bool x q | _ => false end.

Definition inject_db_body : req_json :=
  JsonBody (JObj [("fault_type", JStr "database_down")]).

Definition inject_latency_body (ms : Q) : req_json :=
  JsonBody (JObj [("fault_type", JStr "high_latency"); ("latency_ms", JNum ms)]).

Definition fault_world (db hl : bool) (ms : Q) : world :=
  set_fault {| database_down := db; high_latency := hl; latency_ms := JNum ms |}
            (init_world 0 TFMissing).

(** Ten 50 ms calls of the index page, then the database fault, then one
    more call. *)
Definition ten_then_outage : list op :=
  (repeat (Call RIndex (rq_plain (1#20))) 10
   ++ [InjectFault inject_db_body; Call RIndex (rq_plain (1#20))])%list.

Definition raising_view : handler := fun w => (Exn "boom", w).

Lemma raising_view_frame : view_frame raising_view.
Proof. intro w; repeat split. Qed.

Definition cod_request : request :=
  {| rq_form := [("payment_method", "cod")]; rq_args := [];
     rq_duration := 1#100; rq_overshoot := 0 |}.

Definition default_toggle_kvs : list (string * json) :=
  [("enable_cod", JBool false); ("enable_free_shipping_nudge", JBool false)].

Definition both_faults_then_recover : list op :=
  [InjectFault inject_db_body; InjectFault (inject_latency_body 300)].

(** A high-latency injection whose [latency_ms] is a string, then the
    database fault. *)
Definition bad_latency_then_outage : list op :=
  [InjectFault (JsonBody (JObj [("fault_type", JStr "high_latency"); ("latency_ms", JStr "abc")]));
   InjectFault inject_db_body].


(** C1 (counterexample): right after the database fault is injected into a
    fresh process, the metrics snapshot still reports a system health of
    100 and an error rate of 0. *)
Lemma metrics_not_forced_by_outage :
  let w := run P0 [InjectFault inject_db_body] (init_world 0 TFMissing) in
  database_down (fault_state w) = true /\
  num_field_is "system_health" 100 (get_metrics P0 w) = true /\
  num_field_is "error_rate" 0 (get_metrics P0 w) = true.
Proof. vm_compute; repeat split. Qed.

(** C1 (as the code has it): the metrics snapshot does not read the fault
    state at all; [error_rate] and [system_health] are computed from the
    counters only (the error rate is [error_requests / total_requests * 100],
    or 0 before any request, rounded to two places). *)
Theorem metrics_ignore_fault_state (P : printers) (w : world) (f : fault_t) :
  get_metrics P (set_fault f w) = get_metrics P w /\
  json_field "error_rate" (get_metrics P w) = Some (JNum (py_round (error_rate_of (metrics w)) 2)).
Proof. split; reflexivity. Qed.

(** C3 (counterexample): a checkout whose toggles file cannot be read
    fails with a 500 JSON response, yet no error is counted and no log
    entry is written. *)
Lemma checkout_failure_not_counted :
  let w := init_world 0 (TFUnreadable "[Errno 13] Permission denied") in
  status_code (fst (step P0 (Call RCheckout (rq_plain 0)) w)) = 500 /\
  error_requests (metrics (snd (step P0 (Call RCheckout (rq_plain 0)) w))) = 0 /\
  log_history (snd (step P0 (Call RCheckout (rq_plain 0)) w)) = [].
Proof. vm_compute; repeat split. Qed.

(** C8 (counterexample): in the scenario of ten 50 ms calls followed by
    one call during the outage, the average response time reported is
    45.5 ms, not about 50 ms. *)
Lemma avg_counts_faulted_call :
  num_field_is "avg_response_time" (455#10)
    (get_metrics P0 (run P0 ten_then_outage (init_world 0 TFMissing))) = true.
Proof. vm_compute; reflexivity. Qed.

(** C8 (as the code has it): after ten 50 ms calls and one call during the
    injected outage, the snapshot reports 11 requests, 1 error, an error
    rate of 9.09 and an average response time of 45.5 ms: the faulted call
    adds no time but is counted in the denominator (500 ms / 11). *)
Theorem ten_then_outage_metrics (P : printers) :
  let r := get_metrics P (run P ten_then_outage (init_world 0 TFMissing)) in
  num_field_is "total_requests" 11 r = true /\
  num_field_is "error_requests" 1 r = true /\
  num_field_is "avg_response_time" (455#10) r = true /\
  num_field_is "error_rate" (909#100) r = true.
Proof. vm_compute; repeat split. Qed.

(** Instances of the theorems above at concrete inputs. *)



Lemma checkout_rejection_no_order_witness :
  validation_rejects default_toggle_kvs cod_request = true /\
  error_requests (metrics (snd (instrumented P0 RCheckout cod_request (init_world 0 TFMissing)))) = 0 /\
  total_requests (metrics (snd (instrumented P0 RCheckout cod_request (init_world 0 TFMissing)))) = 1.
Proof.
  split; [reflexivity|].
  destruct (checkout_rejection_no_order P0 cod_request (init_world 0 TFMissing) default_toggle_kvs
              eq_refl ltac:(intro H; discriminate H) eq_refl eq_refl)
    as [_ [_ [_ [D [E _]]]]].
  split; [exact D | exact E].
Defined.

Lemma error_paths_recorded_witness :
  error_requests (metrics (snd (monitor_request P0 0 (call_view P0 RIndex (rq_plain 0))
                                 (fault_world true false 0)))) = 1 /\
  error_requests (metrics (snd (monitor_request P0 0 raising_view (init_world 0 TFMissing)))) = 1 /\
  error_requests (metrics (snd (instrumented P0 RCheckout (rq_plain 0)
                                 (init_world 0 (TFUnreadable "[Errno 13] Permission denied"))))) = 0 /\
  error_requests (metrics (snd (instrumented P0 RCheckout (rq_plain 0)
                                 (init_world 0 (TFText (Some (JArr []))))))) = 0.
Proof.
  destruct (error_paths_recorded P0) as [A [B C]].
  split; [|split; [|split]].
  - exact (proj1 (A 0%Q (call_view P0 RIndex (rq_plain 0)) (fault_world true false 0)
                    eq_refl ltac:(intro H; discriminate H))).
  - exact (proj1 (B 0%Q raising_view (init_world 0 TFMissing) "boom"
                    raising_view_frame ltac:(intro H; discriminate H) eq_refl)).
  - exact (proj1 (proj2 (C (rq_plain 0) (init_world 0 (TFUnreadable "[Errno 13] Permission denied"))
                           "[Errno 13] Permission denied"
                           eq_refl ltac:(intro H; discriminate H) eq_refl))).
  - exact (proj1 (proj2 (C (rq_plain 0) (init_world 0 (TFText (Some (JArr []))))
                           "'list' object has no attribute 'get'"
                           eq_refl ltac:(intro H; discriminate H) eq_refl))).
Defined.

Lemma recover_idempotent_witness :
  fault_state (snd (step P0 (RecoverFault recover_all_body)
                      (run P0 both_faults_then_recover (init_world 0 TFMissing))))
    = {| database_down := false; high_latency := false; latency_ms := JNum 0 |} /\
  latency_ms (fault_state (snd (step P0 (RecoverFault (JsonBody (JObj [("fault_type", JStr "high_latency")])))
                                  (fault_world false true 300)))) = JNum 0.
Proof.
  destruct (recover_idempotent P0 both_faults_then_recover 0 TFMissing) as [A [_ [_ [_ E]]]].
  split; [exact A|].
  apply E; reflexivity.
Defined.

Lemma uninstrumented_endpoints_frame_witness :
  is_instrumented GetMetrics = false /\
  fst (step P0 GetMetrics (fault_world true false 0)) <> db_unavailable_response.
Proof.
  split; [reflexivity|].
  exact (proj2 (proj2 (uninstrumented_endpoints_frame P0 GetMetrics (fault_world true false 0) eq_refl))).
Defined.

(** * Further properties of the application *)

(** ** The /cart page *)

(** [cart()] (GET /cart, not instrumented): the same page as [index()],
    except that the difference to the free-shipping threshold is computed,
    and passed as [diff], whenever the subtotal is below 200, whatever the
    toggle. *)
Definition cart (P : printers) (w : world) : exc response :=
  match load_toggles (toggles_file w) with
  | Exn e => Exn e
  | Ok toggles =>
    match json_get toggles "enable_free_shipping_nudge" (JBool false) with
    | Exn e => Exn e
    | Ok enable_nudge =>
      let cart_data := calculate_cart_totals mock_cart_items in
      let '(nudge_message, diff) :=
        if subtotal cart_data <? 200 then
          let diff := 200 - subtotal cart_data in
          ((if truthy enable_nudge
            then JStr ("再購買 $" ++ py_str P (JNum (inject_Z diff)) ++ " 即可免運費！")
            else JNull), JNum (inject_Z diff))
        else (JNull, JNull) in
      Ok (render "cart.html" [("cart", cart_json cart_data);
                              ("nudge_message", nudge_message);
                              ("diff", diff)])
    end
  end.

(** ** src/feature_flags.py *)

Module FeatureFlags.

(** [load_toggles()] of feature_flags.py, reading config/toggles.json: a
    missing file gives [{}]; a malformed file is not caught. *)
Definition load_toggles (f : toggles_file_t) : exc json :=
  match f with
  | TFMissing => Ok (JObj [])
  | TFUnreadable e => Exn e
  | TFText None => Exn "json.decoder.JSONDecodeError"
  | TFText (Some j) => Ok j
  end.

(** [is_toggle_enabled(feature_name)]: the stored value, [False] if absent. *)
Definition is_toggle_enabled (f : toggles_file_t) (feature_name : string) : exc json :=
  match load_toggles f with
  | Exn e => Exn e
  | Ok toggles => json_get toggles feature_name (JBool false)
  end.

(** What a call of a decorated function ends in: its result, an
    [abort(code)], or an exception. *)
Inductive outcome (A : Type) : Type :=
| Done (a : A)
| Abort (code : Z)
| Raise (msg : string).
Arguments Done {A} a.
Arguments Abort {A} code.
Arguments Raise {A} msg.

(** [feature_required(feature_name)(f)] called: the flag is read at each
    call; [g tt] is the call of the wrapped function. *)
Definition feature_required {A} (f : toggles_file_t) (feature_name : string)
    (g : unit -> exc A) : outcome A :=
  match is_toggle_enabled f feature_name with
  | Exn e => Raise e
  | Ok v =>
    if negb (truthy v) then Abort 404
    else match g tt with Ok a => Done a | Exn e => Raise e end
  end.

End FeatureFlags.

(** ** src/config/config.py *)

(** The class attributes of [Config], from the environment as it is after
    [load_dotenv()]. *)
Record Config_t : Type := {
  DB_HOST : string;
  DB_USER : string;
  DB_PASSWORD : option string;
  SECRET_KEY : option string
}.

(** Executing the body of [class Config]: [os.getenv] with and without a
    default, then [if not SECRET_KEY: raise ValueError(...)]. *)
Definition Config (environ : list (string * string)) : exc Config_t :=
  let getenv k := assoc_get k environ in
  let c := {| DB_HOST := match getenv "DB_HOST" with Some v => v | None => "localhost" end;
              DB_USER := match getenv "DB_USER" with Some v => v | None => "admin" end;
              DB_PASSWORD := getenv "DB_PASSWORD";
              SECRET_KEY := getenv "APP_SECRET_KEY" |} in
  let missing := match SECRET_KEY c with None => true | Some s => String.eqb s "" end in
  if missing then Exn "ValueError: No SECRET_KEY set for Flask application" else Ok c.

(** ** Cart arithmetic *)

Lemma subtotal_fold (l : list item) (a : Z) :
  fold_left (fun acc it => acc + i_price it * i_quantity it) l a
  = a + fold_left (fun acc it => acc + i_price it * i_quantity it) l 0.
Proof.
  revert a; induction l as [|it l IH]; intro a; simpl; [lia|].
  rewrite (IH (a + _)), (IH (i_price it * i_quantity it)).
  lia.
Qed.

(** X: an empty cart has subtotal 0 and is still charged the 60 shipping
    fee; the subtotal is additive over concatenation of item lists. *)
Theorem cart_totals_additive (l1 l2 : list item) :
  subtotal (calculate_cart_totals []) = 0 /\
  shipping_fee (calculate_cart_totals []) = 60 /\
  total (calculate_cart_totals []) = 60 /\
  subtotal (calculate_cart_totals (l1 ++ l2)%list)
  = subtotal (calculate_cart_totals l1) + subtotal (calculate_cart_totals l2).
Proof.
  split; [reflexivity|split; [reflexivity|split; [reflexivity|]]].
  simpl; rewrite fold_left_app, subtotal_fold; reflexivity.
Qed.

(** X: the total is not monotone in the subtotal: a cart just below the
    free-shipping threshold costs more than one that reaches it with less
    than 60 more. *)
Theorem cart_total_drop_at_threshold (l1 l2 : list item) :
  subtotal (calculate_cart_totals l1) < 200 ->
  200 <= subtotal (calculate_cart_totals l2) ->
  subtotal (calculate_cart_totals l2) < subtotal (calculate_cart_totals l1) + 60 ->
  total (calculate_cart_totals l2) < total (calculate_cart_totals l1).
Proof.
  simpl; intros H1 H2 H3.
  destruct (Z.geb_spec (fold_left (fun acc it => acc + i_price it * i_quantity it) l1 0) 200);
  destruct (Z.geb_spec (fold_left (fun acc it => acc + i_price it * i_quantity it) l2 0) 200);
  lia.
Qed.

(** X: /cart and the instrumented index page render the same template,
    cart and nudge message, and fail with the same exception; /cart adds
    [diff], 20 for the mock cart (subtotal 180). *)
Theorem cart_page_matches_index (P : printers) (w : world) :
  snd (index P w) = w /\
  (forall e, fst (index P w) = Exn e <-> cart P w = Exn e) /\
  (forall ctx, fst (index P w) = Ok (render "cart.html" ctx) ->
     cart P w = Ok (render "cart.html" (ctx ++ [("diff", JNum (inject_Z 20))])%list)).
Proof.
  unfold index, cart.
  destruct (load_toggles (toggles_file w)) as [t|e]; simpl.
  - destruct (json_get t "enable_free_shipping_nudge" (JBool false)) as [v|e]; simpl.
    + split; [reflexivity|split].
      * intro e; split; discriminate.
      * intros ctx H; injection H as <-.
        destruct (truthy v); reflexivity.
    + split; [reflexivity|split; [tauto|discriminate]].
  - split; [reflexivity|split; [tauto|discriminate]].
Qed.

(** X: feature_required is secure by default: with config/toggles.json
    missing, or the flag absent from it, the decorated call is answered
    with [abort(404)] and the wrapped function is not run; with a truthy
    flag the call is the wrapped function's; a malformed file raises
    instead of answering 404. *)
Theorem feature_required_default_closed {A} (name : string) (g : unit -> exc A) :
  FeatureFlags.feature_required TFMissing name g = FeatureFlags.Abort 404 /\
  (forall kvs, assoc_get name kvs = None ->
     FeatureFlags.feature_required (TFText (Some (JObj kvs))) name g = FeatureFlags.Abort 404) /\
  (forall kvs v, assoc_get name kvs = Some v -> truthy v = true ->
     FeatureFlags.feature_required (TFText (Some (JObj kvs))) name g =
     match g tt with Ok a => FeatureFlags.Done a | Exn e => FeatureFlags.Raise e end) /\
  (exists e, FeatureFlags.feature_required (TFText None) name g = FeatureFlags.Raise e).
Proof.
  split; [reflexivity|split; [|split]].
  - intros kvs H; unfold FeatureFlags.feature_required, FeatureFlags.is_toggle_enabled; simpl.
    rewrite H; reflexivity.
  - intros kvs v H Ht; unfold FeatureFlags.feature_required, FeatureFlags.is_toggle_enabled; simpl.
    rewrite H, Ht; reflexivity.
  - eexists; reflexivity.
Qed.

(** X: the [Config] class loads exactly when APP_SECRET_KEY is set to a
    non-empty value; DB_PASSWORD is not checked (it is [None] when unset),
    and DB_HOST and DB_USER default to localhost and admin. *)
Theorem config_requires_secret_key (environ : list (string * string)) :
  (forall c, Config environ = Ok c ->
     exists s, assoc_get "APP_SECRET_KEY" environ = Some s /\ s <> "") /\
  (forall s, assoc_get "APP_SECRET_KEY" environ = Some s -> s <> "" ->
     exists c, Config environ = Ok c /\
               DB_PASSWORD c = assoc_get "DB_PASSWORD" environ /\
               SECRET_KEY c = Some s /\
               (assoc_get "DB_HOST" environ = None -> DB_HOST c = "localhost") /\
               (assoc_get "DB_USER" environ = None -> DB_USER c = "admin")).
Proof.
  unfold Config; simpl.
  split.
  - intro c.
    destruct (assoc_get "APP_SECRET_KEY" environ) as [s|]; [|discriminate].
    destruct (String.eqb_spec s ""); [discriminate|].
    intros _; exists s; auto.
  - intros s Hs Hne; rewrite Hs.
    destruct (String.eqb_spec s ""); [contradiction|].
    eexists; split; [reflexivity|].
    simpl; repeat split; intro H; rewrite H; reflexivity.
Qed.

(** ** Rounding *)

(** The integer [py_round] scales back: round half to even of [y]. *)
Definition round_half_even (y : Q) : Z :=
  let f := Qfloor y in
  let r := (y - inject_Z f)%Q in
  if Qeq_bool r (1 # 2) then (if Z.even f then f else f + 1)
  else if Qle_bool (1 # 2) r then f + 1 else f.

Lemma py_round_eq x n :
  py_round x n = (round_half_even (x * inject_Z (10 ^ Z.of_nat n))
                  # Z.to_pos (10 ^ Z.of_nat n))%Q.
Proof. reflexivity. Qed.

Ltac qbools :=
  repeat match goal with
  | H : Qeq_bool _ _ = true |- _ => apply Qeq_bool_iff in H
  | H : Qeq_bool _ _ = false |- _ => apply Qeq_bool_neq in H
  | H : Qle_bool _ _ = true |- _ => apply Qle_bool_iff in H
  | H : Qle_bool ?a ?b = false |- _ =>
      let H' := fresh H in
      assert (H' : (b < a)%Q)
        by (apply Qnot_le_lt; rewrite <- Qle_bool_iff; congruence);
      clear H
  end.

Lemma round_half_even_mono y1 y2 :
  (y1 <= y2)%Q -> round_half_even y1 <= round_half_even y2.
Proof.
  intro H; unfold round_half_even.
  pose proof (Qfloor_resp_le _ _ H) as Hf.
  pose proof (Qfloor_le y1); pose proof (Qlt_floor y1).
  pose proof (Qfloor_le y2); pose proof (Qlt_floor y2).
  destruct (Z.eq_dec (Qfloor y1) (Qfloor y2)) as [E|E].
  - rewrite <- E in *.
    destruct (Qeq_bool (y1 - inject_Z (Qfloor y1)) (1 # 2)) eqn:A1;
    destruct (Qeq_bool (y2 - inject_Z (Qfloor y1)) (1 # 2)) eqn:A2;
    destruct (Qle_bool (1 # 2) (y1 - inject_Z (Qfloor y1))) eqn:B1;
    destruct (Qle_bool (1 # 2) (y2 - inject_Z (Qfloor y1))) eqn:B2;
    destruct (Z.even (Qfloor y1)); try lia; qbools; exfalso;
    try lra;
    try match goal with
    | Hn : ~ (?a == ?b)%Q |- _ => apply Hn; apply Qle_antisym; lra
    end.
  - assert (Qfloor y1 < Qfloor y2) by lia.
    destruct (Qeq_bool (y1 - inject_Z (Qfloor y1)) (1 # 2));
    destruct (Qeq_bool (y2 - inject_Z (Qfloor y2)) (1 # 2));
    destruct (Qle_bool (1 # 2) (y1 - inject_Z (Qfloor y1)));
    destruct (Qle_bool (1 # 2) (y2 - inject_Z (Qfloor y2)));
    destruct (Z.even (Qfloor y1)); destruct (Z.even (Qfloor y2)); lia.
Qed.

Lemma pow10_pos n : 0 < 10 ^ Z.of_nat n.
Proof. apply Z.pow_pos_nonneg; lia. Qed.

Lemma py_round_mono x y n : (x <= y)%Q -> (py_round x n <= py_round y n)%Q.
Proof.
  intro H; rewrite !py_round_eq.
  pose proof (pow10_pos n) as Hs.
  assert (Hm : (x * inject_Z (10 ^ Z.of_nat n) <= y * inject_Z (10 ^ Z.of_nat n))%Q).
  { apply Qmult_le_compat_r; [exact H|].
    change 0%Q with (inject_Z 0); rewrite <- Zle_Qle; lia. }
  pose proof (round_half_even_mono _ _ Hm) as Hk.
  unfold Qle; simpl; nia.
Qed.

Lemma py_round_Z z n : (py_round (inject_Z z) n == inject_Z z)%Q.
Proof.
  rewrite py_round_eq; unfold round_half_even.
  pose proof (pow10_pos n) as Hs.
  set (s := 10 ^ Z.of_nat n) in *.
  replace (inject_Z z * inject_Z s)%Q with (inject_Z (z * s)) by reflexivity.
  rewrite Qfloor_Z.
  destruct (Qeq_bool (inject_Z (z * s) - inject_Z (z * s)) (1 # 2)) eqn:A;
    [qbools; exfalso; lra|].
  destruct (Qle_bool (1 # 2) (inject_Z (z * s) - inject_Z (z * s))) eqn:B;
    [qbools; exfalso; lra|].
  unfold Qeq; simpl; rewrite Z2Pos.id by exact Hs; ring.
Qed.

Lemma py_round_bounds x n (M : Z) :
  (0 <= x <= inject_Z M)%Q -> (0 <= py_round x n <= inject_Z M)%Q.
Proof.
  intros [H0 H1]; split.
  - rewrite <- (py_round_Z 0 n); apply py_round_mono, H0.
  - rewrite <- (py_round_Z M n); apply py_round_mono, H1.
Qed.

Lemma clamp_bounds x : (0 <= Qmax 0 (Qmin 100 x) <= 100)%Q.
Proof.
  unfold Qmax, Qmin.
  destruct (Qle_bool 100 x) eqn:A; destruct (Qle_bool x 100) eqn:A';
  try destruct (Qle_bool 0 100) eqn:B; try destruct (Qle_bool 0 x) eqn:B';
  qbools; lra.
Qed.

Lemma ratio100_bounds (a b : Z) :
  0 <= a <= b -> 0 < b ->
  (0 <= inject_Z a / inject_Z b * 100 <= 100)%Q.
Proof.
  intros Hab Hb.
  assert (Hb' : (0 < inject_Z b)%Q) by (change 0%Q with (inject_Z 0); rewrite <- Zlt_Qlt; lia).
  assert (H0 : (0 <= inject_Z a)%Q) by (change 0%Q with (inject_Z 0); rewrite <- Zle_Qle; lia).
  assert (H1 : (inject_Z a <= inject_Z b)%Q) by (rewrite <- Zle_Qle; lia).
  assert (Hq0 : (0 <= inject_Z a / inject_Z b)%Q)
    by (apply Qle_shift_div_l; [exact Hb'|]; lra).
  assert (Hq1 : (inject_Z a / inject_Z b <= 1)%Q)
    by (apply Qle_shift_div_r; [exact Hb'|]; lra).
  set (q := (inject_Z a / inject_Z b)%Q) in *; lra.
Qed.

Lemma error_rate_bounds m :
  0 <= error_requests m <= total_requests m ->
  (0 <= error_rate_of m <= 100)%Q.
Proof.
  intro H; unfold error_rate_of.
  destruct (Z.ltb_spec 0 (total_requests m)); [apply ratio100_bounds; lia | lra].
Qed.

(** ** Counters and orders *)

(** What every reachable state satisfies about the counters: each order
    comes from a counted, successful request and adds the cart total. *)
Definition orders_inv (w : world) : Prop :=
  0 <= error_requests (metrics w) /\ 0 <= orders_created (metrics w) /\
  orders_created (metrics w) + error_requests (metrics w) <= total_requests (metrics w) /\
  total_sales (metrics w) = 240 * orders_created (metrics w).

(** A handler either leaves the metrics alone, or returns normally after
    recording one order of the mock cart. *)
Definition order_step (f : handler) : Prop :=
  forall w,
    metrics (snd (f w)) = metrics w \/
    exists r, fst (f w) = Ok r /\ metrics (snd (f w)) = record_order 240 (metrics w).

Lemma view_order_step (P : printers) rt rq : order_step (view P rt rq).
Proof.
  intro w; unfold view.
  destruct rt; unfold index, checkout_options, payment, success, checkout;
  case_matches; first [left; reflexivity | right; eexists; split; reflexivity].
Qed.

Lemma call_view_order_step (P : printers) rt rq : order_step (call_view P rt rq).
Proof.
  intro w; unfold call_view.
  destruct (view_order_step P rt rq w) as [E|[r [E1 E2]]];
  destruct (view P rt rq w) as [o w'] eqn:Ev; simpl in *; [left; exact E|].
  right; exists r; auto.
Qed.

Lemma monitor_request_orders (P : printers) ov f w :
  order_step f -> orders_inv w -> orders_inv (snd (monitor_request P ov f w)).
Proof.
  intros Hf [H1 [H2 [H3 H4]]].
  unfold monitor_request; simpl.
  destruct (high_latency (fault_state w)) eqn:Ehl; simpl;
    [destruct (py_num (latency_ms (fault_state w))) as [q|] eqn:Eq; simpl;
     [destruct (Qlt_bool 0 q); simpl|]|].
  all: try (solve [unfold orders_inv; cbn -[Z.mul]; lia]).
  all: destruct (database_down (fault_state w)) eqn:Edb; simpl.
  all: try (solve [unfold orders_inv; autorewrite with frame; cbn -[Z.mul]; lia]).
  all: match goal with
       | Hg : order_step ?g |- context [?g ?w2] =>
           destruct (Hg w2) as [E|[r [E1 E2]]];
           destruct (g w2) as [[r'|e] w3] eqn:Ef; cbn -[Z.mul] in *; try discriminate
       end.
  all: unfold orders_inv; autorewrite with frame; cbn -[Z.mul];
       rewrite ?E, ?E2; cbn -[Z.mul]; lia.
Qed.

Lemma step_orders (P : printers) o w : orders_inv w -> orders_inv (snd (step P o w)).
Proof.
  intros Hw.
  destruct o as [rt rq| | | | | |b|b]; simpl; auto.
  - pose proof (monitor_request_orders P (rq_overshoot rq) (call_view P rt rq) w
                  (call_view_order_step P rt rq) Hw) as Hm.
    unfold instrumented; destruct (monitor_request P _ _ w) as [[r|e] w'];
    exact Hm.
  - destruct (inject_fault_frame P b w) as [F1 _].
    unfold orders_inv; rewrite F1; exact Hw.
  - destruct (recover_fault_frame P b w) as [F1 _].
    unfold orders_inv; rewrite F1; exact Hw.
Qed.

Lemma run_orders (P : printers) os t0 tf : orders_inv (run P os (init_world t0 tf)).
Proof.
  assert (H0 : orders_inv (init_world t0 tf)) by (unfold orders_inv; cbn -[Z.mul]; lia).
  revert H0; generalize (init_world t0 tf).
  induction os as [|o os IH]; intros w Hw; simpl; auto.
  apply IH, step_orders, Hw.
Qed.

(** X: in every reachable state each order has added the cart total (240)
    to the sales, and orders plus errors never exceed the requests: a
    request never both places an order and counts as an error. *)
Theorem sales_track_orders (P : printers) (os : list op) (t0 : Q) (tf : toggles_file_t) :
  let m := metrics (run P os (init_world t0 tf)) in
  total_sales m = 240 * orders_created m /\
  0 <= orders_created m /\
  orders_created m + error_requests m <= total_requests m.
Proof.
  destruct (run_orders P os t0 tf) as [_ [H2 [H3 H4]]]; cbv zeta; auto.
Qed.

(** Reading a field of a nested JSON object. *)
Definition obj_field (k : string) (j : option json) : option json :=
  match j with Some (JObj kvs) => assoc_get k kvs | _ => None end.

(** X: in every reachable state the /metrics error rate, system health
    and SLO availability are percentages: each lies in [0, 100]. *)
Theorem metrics_percentages_in_range (P : printers) (os : list op) (t0 : Q) (tf : toggles_file_t) :
  let r := get_metrics P (run P os (init_world t0 tf)) in
  exists er sh av,
    json_field "error_rate" r = Some (JNum er) /\
    json_field "system_health" r = Some (JNum sh) /\
    obj_field "availability" (json_field "slo_status" r) = Some (JNum av) /\
    (0 <= er <= 100)%Q /\ (0 <= sh <= 100)%Q /\ (0 <= av <= 100)%Q.
Proof.
  destruct (run_reachable P os t0 tf) as [Hle _].
  destruct (run_orders P os t0 tf) as [H0 _].
  set (w := run P os (init_world t0 tf)) in *.
  pose proof (error_rate_bounds (metrics w) (conj H0 Hle)) as Her.
  set (er := error_rate_of (metrics w)) in *.
  do 3 eexists; split; [reflexivity|split; [reflexivity|split; [reflexivity|]]].
  split; [|split].
  - apply (py_round_bounds er 2 100), Her.
  - apply (py_round_bounds _ 1 100), clamp_bounds.
  - apply (py_round_bounds _ 2 100).
    change (error_rate_of (metrics w)) with er; change (inject_Z 100) with 100%Q.
    unfold Qmax; destruct (Qle_bool 0 (100 - er)) eqn:A; qbools; lra.
Qed.

(** X: in every reachable state the remaining error budgets reported by
    /metrics lie in [0, 100] and are ordered monthly <= quarterly <=
    annual (the monthly budget burns fastest). *)
Theorem error_budgets_ordered (P : printers) (os : list op) (t0 : Q) (tf : toggles_file_t) :
  let r := get_metrics P (run P os (init_world t0 tf)) in
  exists mo qu an,
    obj_field "monthly_remaining" (json_field "error_budget" r) = Some (JNum mo) /\
    obj_field "quarterly_remaining" (json_field "error_budget" r) = Some (JNum qu) /\
    obj_field "annual_remaining" (json_field "error_budget" r) = Some (JNum an) /\
    (0 <= mo)%Q /\ (mo <= qu)%Q /\ (qu <= an)%Q /\ (an <= 100)%Q.
Proof.
  destruct (run_reachable P os t0 tf) as [Hle _].
  destruct (run_orders P os t0 tf) as [H0 _].
  set (w := run P os (init_world t0 tf)) in *.
  pose proof (error_rate_bounds (metrics w) (conj H0 Hle)) as [Her _].
  set (er := error_rate_of (metrics w)) in *.
  do 3 eexists; split; [reflexivity|split; [reflexivity|split; [reflexivity|]]].
  assert (Hrem : forall c, (0 <= c)%Q ->
            (0 <= Qmax 0 (100 - Qmin 100 (er * c)) <= 100)%Q).
  { intros c Hc; unfold Qmax, Qmin.
    destruct (Qle_bool 100 (er * c)) eqn:A; destruct (Qle_bool (er * c) 100) eqn:A';
    try destruct (Qle_bool 0 (100 - er * c)) eqn:B; try destruct (Qle_bool 0 (100 - 100)) eqn:B';
    qbools; try lra;
    assert (0 <= er * c)%Q by (apply Qmult_le_0_compat; auto); lra. }
  assert (Hord : forall c d, (0 <= c)%Q -> (c <= d)%Q ->
            (Qmax 0 (100 - Qmin 100 (er * d)) <= Qmax 0 (100 - Qmin 100 (er * c)))%Q).
  { intros c d Hc Hcd.
    assert (er * c <= er * d)%Q by (rewrite !(Qmult_comm er); apply Qmult_le_compat_r; auto).
    unfold Qmax, Qmin.
    destruct (Qle_bool 100 (er * c)) eqn:A1; destruct (Qle_bool (er * c) 100) eqn:A2;
    destruct (Qle_bool 100 (er * d)) eqn:A3; destruct (Qle_bool (er * d) 100) eqn:A4;
    repeat match goal with |- context [Qle_bool ?a ?b] =>
      let E := fresh "E" in destruct (Qle_bool a b) eqn:E end;
    qbools; lra. }
  change (error_rate_of (metrics w)) with er.
  split; [|split; [|split]].
  - apply (py_round_bounds _ 1 100), Hrem; lra.
  - apply py_round_mono, Hord; lra.
  - apply py_round_mono, Hord; lra.
  - apply (py_round_bounds _ 1 100), Hrem; lra.
Qed.

Lemma filter_length_le {A} (p : A -> bool) (l : list A) :
  (List.length (filter p l) <= List.length l)%nat.
Proof. induction l as [|a l IH]; simpl; [lia|]; destruct (p a); simpl; lia. Qed.

(** X: the /chart-data error rate is a percentage in [0, 100] for any
    history, and it is 0 when no stored sample is an error (in particular
    on an empty history, where the code divides by 1). *)
Theorem chart_error_rate_in_range (w : world) :
  exists cr,
    json_field "current_error_rate" (get_chart_data w) = Some (JNum cr) /\
    (0 <= cr <= 100)%Q /\
    (forallb (fun s => negb (s_is_error s)) (response_time_history w) = true -> (cr == 0)%Q).
Proof.
  eexists; split; [reflexivity|].
  set (h := response_time_history w).
  assert (Hc : (List.length (filter s_is_error h) <= (match h with [] => 1 | _ => List.length h end))%nat).
  { destruct h as [|s h']; simpl; [lia|].
    pose proof (filter_length_le s_is_error h'); destruct (s_is_error s); simpl; lia. }
  assert (Hp : (0 < match h with [] => 1 | _ => List.length h end)%nat)
    by (destruct h; simpl; lia).
  split.
  - apply (py_round_bounds _ 2 100), ratio100_bounds; lia.
  - intro Hall.
    assert (Hf : filter s_is_error h = []).
    { clear Hc Hp; induction h as [|s h' IH]; simpl in *; auto.
      apply andb_prop in Hall as [A B]; destruct (s_is_error s); [discriminate|auto]. }
    rewrite Hf.
    match goal with |- (py_round ?x 2 == 0)%Q =>
      assert (Hx : (x == 0)%Q) by (simpl; unfold Qdiv; rewrite !Qmult_0_l; reflexivity);
      pose proof (py_round_mono x 0 2 (proj2 (Qle_lteq x 0) (or_intror Hx))) as U;
      pose proof (py_round_mono 0 x 2 (proj2 (Qle_lteq 0 x) (or_intror (Qeq_sym _ _ Hx)))) as V
    end.
    pose proof (py_round_Z 0 2) as Z0; change (inject_Z 0) with 0%Q in Z0.
    apply Qle_antisym.
    + eapply Qle_trans; [exact U|]; rewrite Z0; apply Qle_refl.
    + eapply Qle_trans; [|exact V]; rewrite Z0; apply Qle_refl.
Qed.

Lemma py_round_Qeq x y n : (x == y)%Q -> (py_round x n == py_round y n)%Q.
Proof.
  intro H; apply Qle_antisym; apply py_round_mono; rewrite H; apply Qle_refl.
Qed.

(** ** /services *)


(** X: while [database_down] is set, /services reports the database with
    health 0, status "degraded", 0 connections and [is_down = true], the
    order and payment services as "degraded" and the user service as
    "warning", whatever the counters. *)
Theorem services_under_db_outage (w : world) (r : response) :
  database_down (fault_state w) = true ->
  get_services w = Ok r ->
  obj_field "health" (json_field "database" r) = Some (JNum 0) /\
  obj_field "status" (json_field "database" r) = Some (JStr "degraded") /\
  obj_field "connections" (json_field "database" r) = Some (JNum 0) /\
  obj_field "is_down" (json_field "database" r) = Some (JBool true) /\
  obj_field "status" (json_field "user-service" r) = Some (JStr "warning") /\
  obj_field "status" (json_field "order-service" r) = Some (JStr "degraded") /\
  obj_field "status" (json_field "payment-service" r) = Some (JStr "degraded").
Proof.
  intros Hdb H; unfold get_services in H; cbv zeta in H; rewrite Hdb in H.
  destruct (high_latency (fault_state w)); destruct (py_num (latency_ms (fault_state w)));
  cbv beta iota in H; try discriminate;
  injection H as <-; repeat split.
Qed.

(** X: the database entry of /services is not clamped at 0 like the
    others: with the database up and an error rate of at least 50%, the
    base health is 0 and the database reports health -1 ("degraded"). *)
Theorem database_health_unclamped (w : world) (r : response) :
  database_down (fault_state w) = false ->
  get_services w = Ok r ->
  (50 <= error_rate_of (metrics w))%Q ->
  exists h, obj_field "health" (json_field "database" r) = Some (JNum h) /\ (h == -1)%Q /\
            obj_field "status" (json_field "database" r) = Some (JStr "degraded").
Proof.
  intros Hdb H Her; unfold get_services in H; cbv zeta in H; rewrite Hdb in H.
  set (er := error_rate_of (metrics w)) in *.
  set (avg := avg_response_time_of (metrics w)) in *.
  set (bh := Qmax 0 (Qmin 100 (if Qlt_bool 200 avg
                                then (100 - er * 2 - (avg - 200) / 100 * 1)%Q
                                else (100 - er * 2)%Q))) in *.
  assert (Hbh : (bh == 0)%Q).
  { unfold bh, Qmax, Qmin.
    destruct (Qlt_bool 200 avg) eqn:L.
    - unfold Qlt_bool in L; apply negb_true_iff in L; qbools.
      unfold Qdiv; change (/ 100)%Q with (1 # 100)%Q.
      repeat match goal with |- context [Qle_bool ?a ?b] =>
        let E := fresh "E" in destruct (Qle_bool a b) eqn:E end;
      qbools; lra.
    - repeat match goal with |- context [Qle_bool ?a ?b] =>
        let E := fresh "E" in destruct (Qle_bool a b) eqn:E end;
      qbools; lra. }
  assert (Hh : (py_round (bh - 1) 1 == -1)%Q).
  { rewrite (py_round_Qeq (bh - 1) (inject_Z (-1)) 1) by (rewrite Hbh; reflexivity).
    apply py_round_Z. }
  destruct (high_latency (fault_state w)); destruct (py_num (latency_ms (fault_state w)));
  cbv beta iota in H; try discriminate;
  injection H as <-.
  all: exists (py_round (bh - 1) 1); split; [reflexivity|split; [exact Hh|]].
  all: unfold get_status; cbv beta iota.
  all: destruct (Qle_bool 95 (py_round (bh - 1) 1)) eqn:A;
       [qbools; exfalso; lra|].
  all: destruct (Qle_bool 80 (py_round (bh - 1) 1)) eqn:B;
       [qbools; exfalso; lra|].
  all: reflexivity.
Qed.

(** ** Accepted checkout *)

Lemma checkout_accepts (rq : request) (w : world) kvs :
  load_toggles (toggles_file w) = Ok (JObj kvs) ->
  validation_rejects kvs rq = false ->
  exists r, status_code r = 200 /\ json_field "status" r = Some (JStr "success") /\
            forall w', toggles_file w' = toggles_file w ->
                       checkout rq w' = (Ok r, set_metrics (record_order 240 (metrics w')) w').
Proof.
  intros Ht Hv; unfold validation_rejects in Hv.
  destruct (String.eqb (form_get_default rq "payment_method" "credit_card") "cod") eqn:Ecod;
  destruct (String.eqb (form_get_default rq "payment_method" "credit_card") "credit_card") eqn:Ecc;
  destruct (truthy (match assoc_get "enable_cod" kvs with Some v => v | None => JBool false end)) eqn:Etr;
  destruct (form_missing rq "card_number" || form_missing rq "expiry_date" || form_missing rq "cvv") eqn:Em;
  simpl in Hv; try discriminate;
  try (apply String.eqb_eq in Ecod; apply String.eqb_eq in Ecc; congruence);
  eexists; (split; [| split; [| intros w' Ht'; unfold checkout; rewrite Ht', Ht; simpl json_get;
                      cbn zeta; rewrite ?Ecod, ?Ecc, ?Etr, ?Em; reflexivity]]);
  reflexivity.
Qed.

(** X: a checkout that passes the input checks (cash on delivery with the
    toggle on, or a credit card with all three fields filled), reaching
    the view with the database up, answers 200 "success" and records one
    order: [orders_created] + 1, [total_sales] + 240 (the cart total),
    [total_requests] + 1, [error_requests] and the log unchanged. *)
Theorem checkout_accepted_places_order (P : printers) (rq : request) (w : world)
    (kvs : list (string * json)) :
  database_down (fault_state w) = false ->
  latency_guard_ok (fault_state w) ->
  load_toggles (toggles_file w) = Ok (JObj kvs) ->
  validation_rejects kvs rq = false ->
  (exists r, fst (instrumented P RCheckout rq w) = Ok r /\ status_code r = 200 /\
             json_field "status" r = Some (JStr "success")) /\
  orders_created (metrics (snd (instrumented P RCheckout rq w))) = orders_created (metrics w) + 1 /\
  total_sales (metrics (snd (instrumented P RCheckout rq w))) = total_sales (metrics w) + 240 /\
  error_requests (metrics (snd (instrumented P RCheckout rq w))) = error_requests (metrics w) /\
  total_requests (metrics (snd (instrumented P RCheckout rq w))) = total_requests (metrics w) + 1 /\
  log_history (snd (instrumented P RCheckout rq w)) = log_history w.
Proof.
  intros Hdb Hg Ht Hv.
  destruct (checkout_accepts rq w kvs Ht Hv) as [r [Hc [Hs Hf]]].
  unfold instrumented.
  destruct (monitor_request_unfold P (rq_overshoot rq) (call_view P RCheckout rq) w Hg)
    as [sd [_ [_ E]]].
  rewrite E, Hdb; cbn zeta iota beta.
  set (w2 := match sd with Some d => advance d _ | None => _ end).
  assert (Hv2 : call_view P RCheckout rq w2 =
                (Ok r, advance (rq_duration rq) (set_metrics (record_order 240 (metrics w2)) w2))).
  { unfold call_view; simpl view; rewrite (Hf w2); [reflexivity|].
    unfold w2; destruct sd; reflexivity. }
  rewrite Hv2; cbn [fst snd].
  split; [exists r; auto|].
  autorewrite with frame.
  unfold w2; destruct sd; simpl; repeat split; lia.
Qed.

(** ** Fault control *)

Definition fault_type_body (t : string) : req_json :=
  JsonBody (JObj [("fault_type", JStr t)]).

(** X: /fault/inject with an empty JSON body (no [fault_type]) injects a
    database failure, and a [high_latency] injection without [latency_ms]
    stores 2000; both answer 200 and leave the other fault flag as it
    was. *)
Theorem inject_fault_defaults (P : printers) (w : world) :
  status_code (fst (inject_fault P (JsonBody (JObj [])) w)) = 200 /\
  fault_state (snd (inject_fault P (JsonBody (JObj [])) w)) =
    with_database_down true (fault_state w) /\
  status_code (fst (inject_fault P (fault_type_body "high_latency") w)) = 200 /\
  fault_state (snd (inject_fault P (fault_type_body "high_latency") w)) =
    with_high_latency true (JNum 2000) (fault_state w).
Proof. repeat split. Qed.

(** X: a fault-control request that is not answered 200 (a body that is
    not a dict, malformed JSON, or an unknown [fault_type] for inject)
    changes nothing: metrics, history, log and fault state are as before. *)
Theorem failed_fault_control_changes_nothing (P : printers) (b : req_json) (w : world) :
  (status_code (fst (inject_fault P b w)) <> 200 -> snd (inject_fault P b w) = w) /\
  (status_code (fst (recover_fault P b w)) <> 200 -> snd (recover_fault P b w) = w).
Proof.
  split; [unfold inject_fault | unfold recover_fault]; case_matches; intro H;
  try reflexivity; exfalso; apply H; reflexivity.
Qed.

(** X: in a reachable state, injecting a fault that is not active and then
    recovering that same fault type restores the fault state exactly
    (for [high_latency] the stored [latency_ms] goes back to 0, whatever
    latency was injected). *)
Theorem inject_then_recover_restores (P : printers) (os : list op) (t0 : Q)
    (tf : toggles_file_t) (v : json) :
  let w := run P os (init_world t0 tf) in
  (database_down (fault_state w) = false ->
   fault_state (snd (recover_fault P (fault_type_body "database_down")
     (snd (inject_fault P (fault_type_body "database_down") w)))) = fault_state w) /\
  (high_latency (fault_state w) = false ->
   fault_state (snd (recover_fault P (fault_type_body "high_latency")
     (snd (inject_fault P (JsonBody (JObj [("fault_type", JStr "high_latency");
                                           ("latency_ms", v)])) w)))) = fault_state w).
Proof.
  intros w.
  destruct (run_reachable P os t0 tf) as [_ [_ Hlat]]; fold w in Hlat.
  destruct (fault_state w) as [db hl lat] eqn:Ef; simpl in Hlat.
  split; intro H; simpl in H; subst.
  - unfold recover_fault, inject_fault; simpl; autorewrite with frame; simpl.
    rewrite Ef; reflexivity.
  - rewrite (Hlat eq_refl).
    unfold recover_fault, inject_fault; simpl; autorewrite with frame; simpl.
    rewrite Ef; reflexivity.
Qed.

(** X: recovering one fault type leaves the other alone: recovering
    [database_down] keeps [high_latency] and [latency_ms], recovering
    [high_latency] keeps [database_down]. *)
Theorem recover_single_fault_isolated (P : printers) (w : world) :
  high_latency (fault_state (snd (recover_fault P (fault_type_body "database_down") w))) =
    high_latency (fault_state w) /\
  latency_ms (fault_state (snd (recover_fault P (fault_type_body "database_down") w))) =
    latency_ms (fault_state w) /\
  database_down (fault_state (snd (recover_fault P (fault_type_body "high_latency") w))) =
    database_down (fault_state w).
Proof.
  unfold recover_fault; simpl.
  destruct (fault_state w) as [db hl lat] eqn:Ef; simpl.
  destruct db, hl; simpl; autorewrite with frame; simpl; rewrite ?Ef; repeat split.
Qed.

(** X: /fault/status agrees with the control endpoints: right after a
    database injection it reports [is_degraded = true] with
    "database_down" among the active faults; right after recovering
    "all" it reports [is_degraded = false] and no active fault. *)
Theorem fault_status_after_control (P : printers) (w : world) :
  json_field "is_degraded" (fault_status (snd (inject_fault P (fault_type_body "database_down") w)))
    = Some (JBool true) /\
  (exists l, json_field "active_faults"
               (fault_status (snd (inject_fault P (fault_type_body "database_down") w)))
             = Some (JArr l) /\ In (JStr "database_down") l) /\
  json_field "is_degraded" (fault_status (snd (recover_fault P recover_all_body w)))
    = Some (JBool false) /\
  json_field "active_faults" (fault_status (snd (recover_fault P recover_all_body w)))
    = Some (JArr []).
Proof.
  split; [reflexivity|].
  split; [eexists; split; [reflexivity | left; reflexivity]|].
  unfold recover_fault, recover_all_body; simpl.
  destruct (fault_state w) as [db hl lat] eqn:Ef; simpl.
  destruct db, hl; simpl; autorewrite with frame; simpl; rewrite ?Ef; simpl; rewrite ?Ef;
    unfold fault_status; rewrite ?Ef; split; reflexivity.
Qed.

(** ** Logs *)

(** X: /logs lists at most the 20 newest stored log entries, newest
    first, ends with one "info" status entry, and puts in front of them
    one alert per active condition: [database_down], [high_latency], and
    an error rate above 1%. *)
Theorem logs_view_shape (P : printers) (w : world) :
  exists alerts st,
    body (get_logs P w) =
      BJson (JArr (alerts ++ map log_json (rev (lastn 20 (log_history w))) ++ [st]))%list /\
    obj_field "level" (Some st) = Some (JStr "info") /\
    List.length alerts =
      ((if database_down (fault_state w) then 1 else 0)
       + (if high_latency (fault_state w) then 1 else 0)
       + (if Qlt_bool 1 (error_rate_of (metrics w)) then 1 else 0))%nat.
Proof.
  unfold get_logs; cbv zeta.
  destruct (Qlt_bool 5 (error_rate_of (metrics w))) eqn:E5;
  destruct (Qlt_bool 1 (error_rate_of (metrics w))) eqn:E1;
  [| exfalso; unfold Qlt_bool in E5, E1;
     apply negb_true_iff in E5; apply negb_false_iff in E1; qbools; lra | |];
  destruct (database_down (fault_state w)); destruct (high_latency (fault_state w));
  cbv beta iota;
  first [ eexists nil; eexists; split; [reflexivity | split; reflexivity]
        | eexists (_ :: nil); eexists; split; [reflexivity | split; reflexivity]
        | eexists (_ :: _ :: nil); eexists; split; [reflexivity | split; reflexivity]
        | eexists (_ :: _ :: _ :: nil); eexists; split; [reflexivity | split; reflexivity] ].
Qed.

Definition logs_bounded (w : world) : Prop := (List.length (log_history w) <= 100)%nat.

Lemma add_log_bounded (P : printers) lvl msg cat w : logs_bounded (add_log P lvl msg cat w).
Proof.
  unfold logs_bounded, add_log; simpl.
  match goal with |- context [Nat.ltb 100 (List.length ?l)] =>
    destruct (Nat.ltb_spec 100 (List.length l)); [apply length_lastn | lia]
  end.
Qed.

Lemma view_logs (P : printers) rt rq w :
  log_history (snd (view P rt rq w)) = log_history w.
Proof.
  unfold view.
  destruct rt; unfold index, checkout_options, payment, success, checkout;
  case_matches; reflexivity.
Qed.

Lemma call_view_logs (P : printers) rt rq w :
  log_history (snd (call_view P rt rq w)) = log_history w.
Proof.
  unfold call_view; rewrite <- (view_logs P rt rq w).
  destruct (view P rt rq w); reflexivity.
Qed.

Lemma monitor_request_bounded (P : printers) ov rt rq w :
  logs_bounded w -> logs_bounded (snd (monitor_request P ov (call_view P rt rq) w)).
Proof.
  intro Hw; unfold monitor_request; simpl.
  destruct (high_latency (fault_state w)) eqn:Ehl; simpl;
    [destruct (py_num (latency_ms (fault_state w))) as [q|] eqn:Eq; simpl;
     [destruct (Qlt_bool 0 q); simpl|]|].
  all: try (solve [exact Hw]).
  all: destruct (database_down (fault_state w)) eqn:Edb; simpl;
       [apply add_log_bounded|].
  all: match goal with |- context [call_view ?P' ?rt' ?rq' ?w2] =>
         pose proof (call_view_logs P' rt' rq' w2) as Hl;
         destruct (call_view P' rt' rq' w2) as [[r|e] w3] eqn:Ef; simpl in Hl
       end; [|apply add_log_bounded].
  all: unfold logs_bounded; autorewrite with frame; simpl; rewrite Hl; exact Hw.
Qed.

Lemma step_bounded (P : printers) o w : logs_bounded w -> logs_bounded (snd (step P o w)).
Proof.
  intros Hw.
  destruct o as [rt rq| | | | | |b|b]; simpl; auto.
  - pose proof (monitor_request_bounded P (rq_overshoot rq) rt rq w Hw) as Hm.
    unfold instrumented; destruct (monitor_request P _ _ w) as [[r|e] w'];
    exact Hm.
  - unfold inject_fault; case_matches; auto; apply add_log_bounded.
  - unfold recover_fault; case_matches; auto; apply add_log_bounded.
Qed.

(** X: the in-memory log keeps the last 100 entries: [add_log] appends the
    new entry, stamped with the current time, and drops the oldest ones
    beyond 100, so that the log of every reachable state has at most 100
    entries. *)
Theorem log_history_capped (P : printers) (os : list op) (t0 : Q) (tf : toggles_file_t) :
  (List.length (log_history (run P os (init_world t0 tf))) <= 100)%nat /\
  (forall lvl msg cat w,
     log_history (add_log P lvl msg cat w) =
     lastn 100 (log_history w ++
                [{| l_level := lvl; l_message := msg; l_category := cat;
                    l_timestamp := strftime P "%Y-%m-%d %H:%M:%S" (clock w) |}])%list).
Proof.
  split.
  - assert (H0 : logs_bounded (init_world t0 tf)) by (unfold logs_bounded; simpl; lia).
    revert H0; generalize (init_world t0 tf).
    induction os as [|o os IH]; intros w Hw; simpl; auto.
    apply IH, step_bounded, Hw.
  - intros lvl msg cat w; unfold add_log; simpl.
    match goal with |- context [Nat.ltb 100 (List.length ?l)] =>
      destruct (Nat.ltb_spec 100 (List.length l)); [reflexivity|]
    end.
    unfold lastn; replace (_ - 100)%nat with 0%nat by lia; reflexivity.
Qed.

(** ** Request stamping *)

(** X: every call of an instrumented route, whatever its outcome (503
    short-circuit, view exception, TypeError in the latency guard, or a
    normal answer), counts one request and sets [last_request_time] to
    the time the call started; [uptime_start] never changes. *)
Theorem instrumented_call_stamps_request (P : printers) (rt : route) (rq : request) (w : world) :
  total_requests (metrics (snd (step P (Call rt rq) w))) = total_requests (metrics w) + 1 /\
  last_request_time (metrics (snd (step P (Call rt rq) w))) = clock w /\
  uptime_start (metrics (snd (step P (Call rt rq) w))) = uptime_start (metrics w).
Proof.
  assert (H : let w' := snd (monitor_request P (rq_overshoot rq) (call_view P rt rq) w) in
              total_requests (metrics w') = total_requests (metrics w) + 1 /\
              last_request_time (metrics w') = clock w /\
              uptime_start (metrics w') = uptime_start (metrics w)).
  { unfold monitor_request; simpl.
    destruct (high_latency (fault_state w)) eqn:Ehl; simpl;
      [destruct (py_num (latency_ms (fault_state w))) as [q|] eqn:Eq; simpl;
       [destruct (Qlt_bool 0 q); simpl|]|].
    all: try (solve [repeat split]).
    all: destruct (database_down (fault_state w)) eqn:Edb; simpl;
         [autorewrite with frame; simpl; repeat split|].
    all: match goal with |- context [call_view ?P' ?rt' ?rq' ?w2] =>
           destruct (call_view_order_step P' rt' rq' w2) as [E|[r [E1 E2]]];
           destruct (call_view P' rt' rq' w2) as [[r'|e] w3] eqn:Ef; cbn [fst snd] in *;
           try discriminate
         end.
    all: autorewrite with frame; simpl; rewrite ?E, ?E2; simpl; repeat split. }
  simpl; unfold instrumented.
  destruct (monitor_request P (rq_overshoot rq) (call_view P rt rq) w) as [[r|e] w'] eqn:Em;
  simpl in H |- *; exact H.
Qed.

(** ** Instances of the properties above *)

Lemma cart_total_drop_at_threshold_witness :
  let l1 := mock_cart_items in
  let l2 := (mock_cart_items ++ [{| i_name := "Filter"; i_price := 20; i_quantity := 1 |}])%list in
  subtotal (calculate_cart_totals l1) = 180 /\ subtotal (calculate_cart_totals l2) = 200 /\
  total (calculate_cart_totals l2) < total (calculate_cart_totals l1).
Proof.
  intros l1 l2; split; [reflexivity|split; [reflexivity|]].
  apply cart_total_drop_at_threshold; reflexivity.
Defined.

Lemma cart_page_matches_index_witness :
  cart P0 (init_world 0 TFMissing) =
  Ok (render "cart.html" [("cart", cart_json (calculate_cart_totals mock_cart_items));
                          ("nudge_message", JNull); ("diff", JNum (inject_Z 20))]).
Proof.
  apply (proj2 (proj2 (cart_page_matches_index P0 (init_world 0 TFMissing)))
           [("cart", cart_json (calculate_cart_totals mock_cart_items)); ("nudge_message", JNull)]).
  reflexivity.
Defined.

Lemma feature_required_default_closed_witness :
  FeatureFlags.feature_required (TFText (Some (JObj [("beta", JBool true)]))) "beta"
    (fun _ => Ok 7%Z) = FeatureFlags.Done 7%Z /\
  FeatureFlags.feature_required (TFText (Some (JObj [("beta", JBool true)]))) "gamma"
    (fun _ => Ok 7%Z) = FeatureFlags.Abort 404.
Proof.
  destruct (feature_required_default_closed "beta" (fun _ : unit => Ok 7%Z)) as [_ [_ [H _]]].
  destruct (feature_required_default_closed "gamma" (fun _ : unit => Ok 7%Z)) as [_ [H' _]].
  split; [apply (H _ (JBool true)) | apply H']; reflexivity.
Defined.

Lemma config_requires_secret_key_witness :
  exists c, Config [("APP_SECRET_KEY", "s3cret")] = Ok c /\ DB_HOST c = "localhost" /\
            DB_PASSWORD c = None.
Proof.
  destruct (proj2 (config_requires_secret_key [("APP_SECRET_KEY", "s3cret")]) "s3cret")
    as [c [H1 [H2 [_ [H4 _]]]]]; [reflexivity | discriminate |].
  exists c; split; [exact H1|split; [apply H4; reflexivity | exact H2]].
Defined.

Lemma chart_error_rate_in_range_witness :
  exists cr, json_field "current_error_rate" (get_chart_data (init_world 0 TFMissing)) = Some (JNum cr)
             /\ (cr == 0)%Q.
Proof.
  destruct (chart_error_rate_in_range (init_world 0 TFMissing)) as [cr [H1 [_ H3]]].
  exists cr; split; [exact H1 | apply H3; reflexivity].
Defined.

Lemma services_under_db_outage_witness :
  exists r, get_services (fault_world true false 0) = Ok r /\
            obj_field "health" (json_field "database" r) = Some (JNum 0) /\
            obj_field "status" (json_field "user-service" r) = Some (JStr "warning").
Proof.
  destruct (get_services (fault_world true false 0)) as [r|e] eqn:E;
    [|vm_compute in E; discriminate].
  destruct (services_under_db_outage (fault_world true false 0) r) as [H1 [_ [_ [_ [H5 _]]]]];
    [reflexivity | exact E |].
  exists r; auto.
Defined.

Lemma database_health_unclamped_witness :
  exists r h,
    get_services (run P0 [InjectFault inject_db_body; Call RIndex (rq_plain 0);
                          RecoverFault inject_db_body] (init_world 0 TFMissing)) = Ok r /\
    obj_field "health" (json_field "database" r) = Some (JNum h) /\ (h == -1)%Q.
Proof.
  destruct (get_services (run P0 [InjectFault inject_db_body; Call RIndex (rq_plain 0);
                                  RecoverFault inject_db_body] (init_world 0 TFMissing)))
    as [r|e] eqn:E; [|vm_compute in E; discriminate].
  destruct (database_health_unclamped
              (run P0 [InjectFault inject_db_body; Call RIndex (rq_plain 0);
                       RecoverFault inject_db_body] (init_world 0 TFMissing)) r)
    as [h [H1 [H2 _]]];
    [vm_compute; reflexivity | exact E | apply Qle_bool_iff; vm_compute; reflexivity |].
  exists r, h; auto.
Defined.

Lemma checkout_accepted_places_order_witness :
  let rq := {| rq_form := [("payment_method", "credit_card"); ("card_number", "4111");
                           ("expiry_date", "12/30"); ("cvv", "123")];
               rq_args := []; rq_duration := 1#100; rq_overshoot := 0 |} in
  orders_created (metrics (snd (instrumented P0 RCheckout rq (init_world 0 TFMissing)))) = 1 /\
  total_sales (metrics (snd (instrumented P0 RCheckout rq (init_world 0 TFMissing)))) = 240.
Proof.
  intro rq.
  destruct (checkout_accepted_places_order P0 rq (init_world 0 TFMissing) default_toggle_kvs)
    as [_ [H1 [H2 _]]];
    [reflexivity | intro H; discriminate | reflexivity | reflexivity |].
  rewrite H1, H2; split; reflexivity.
Defined.

Lemma failed_fault_control_changes_nothing_witness :
  snd (inject_fault P0 (fault_type_body "cpu_spike") (init_world 0 TFMissing)) = init_world 0 TFMissing /\
  snd (recover_fault P0 BadJson (init_world 0 TFMissing)) = init_world 0 TFMissing.
Proof.
  destruct (failed_fault_control_changes_nothing P0 (fault_type_body "cpu_spike") (init_world 0 TFMissing))
    as [H1 _].
  destruct (failed_fault_control_changes_nothing P0 BadJson (init_world 0 TFMissing)) as [_ H2].
  split; [apply H1 | apply H2]; discriminate.
Defined.

Lemma inject_then_recover_restores_witness :
  fault_state (snd (recover_fault P0 (fault_type_body "high_latency")
    (snd (inject_fault P0 (JsonBody (JObj [("fault_type", JStr "high_latency");
                                            ("latency_ms", JNum 500)]))
            (init_world 0 TFMissing))))) = fault_state (init_world 0 TFMissing).
Proof.
  apply (proj2 (inject_then_recover_restores P0 [] 0 TFMissing (JNum 500))).
  reflexivity.
Defined.
